(** * tsdproxy: the proxy lifecycle engine

    A shallow embedding of the Go sources of the proxy manager
    ([internal/proxymanager]), of the two target providers
    ([internal/targetproviders/list] and [.../docker]) and of the mesh
    endpoint adapter ([internal/proxyproviders]), together with the
    properties of the lifecycle engine that the specification states.

    Conventions of the embedding.
    - Go maps are [gmap]s; a [range] over a map is the traversal of
      [map_to_list] (Go leaves the order unspecified, so no statement
      below depends on it unless it says so).
    - A method with a pointer receiver is a function returning the updated
      receiver.  Status events handed to the [onUpdate] callback are
      collected by a writer monad ([Pub]); the manager appends them to its
      status bus.
    - A goroutine spawned with [go] has no effect at the spawning point; its
      body is a function of its own ([Proxy_start]). *)

From Stdlib Require Import Ascii String.
From stdpp Require Import base option list strings gmap fin_maps.

Open Scope string_scope.

(** ** Results of fallible calls: Go's [(value, error)] pairs. *)

Inductive Res (A : Type) : Type :=
  | Ok (a : A)
  | Err (e : string).
Arguments Ok {A} a.
Arguments Err {A} e.

(** ** Package [model] *)

Module model.

(** Modelled from the spec: the status enumeration of [internal/model],
    whose declaration is not part of the sources at hand; section 6 lists
    its seven values. *)
Inductive ProxyStatus : Set :=
  | ProxyStatusInitializing
  | ProxyStatusStarting
  | ProxyStatusAuthenticating
  | ProxyStatusRunning
  | ProxyStatusStopping
  | ProxyStatusStopped
  | ProxyStatusError.

#[global] Instance ProxyStatus_eq_dec : EqDecision ProxyStatus.
Proof. solve_decision. Defined.

(** The event the proxies publish: [ProxyEvent{ID, Status}]. *)
Record ProxyEvent : Set := mkProxyEvent {
  ID : string;
  Status : ProxyStatus
}.

#[global] Instance ProxyEvent_eq_dec : EqDecision ProxyEvent.
Proof. solve_decision. Defined.

(** [model.Whois], as [tailscale.Proxy.Whois] fills it. *)
Record Whois : Set := mkWhois {
  DisplayName : string;
  Username : string;
  WhoisID : string;
  ProfilePicURL : string
}.

#[global] Instance Whois_eq_dec : EqDecision Whois.
Proof. solve_decision. Defined.

(** The zero value [model.Whois{}]: the empty identity. *)
Definition Whois_zero : Whois := mkWhois "" "" "" "".

(** [net/url.URL], restricted to the fields the sources read. *)
Record URL : Set := mkURL {
  Scheme : string;
  Host : string;
  Path : string
}.

#[global] Instance URL_eq_dec : EqDecision URL.
Proof. solve_decision. Defined.

Definition URL_zero : URL := mkURL "" "" "".

Record TailscalePort : Set := mkTailscalePort { Funnel : bool }.

#[global] Instance TailscalePort_eq_dec : EqDecision TailscalePort.
Proof. solve_decision. Defined.

(** Modelled from the spec: [model.PortConfig] (section 3), whose
    declaration is not part of the sources at hand.  [targets] is the
    ordered list of upstream URLs, the first one being the active
    upstream. *)
Record PortConfig : Set := mkPortConfig {
  ProxyProtocol : string;
  ProxyPort : Z;
  PortTailscale : TailscalePort;
  TLSValidate : bool;
  IsRedirect : bool;
  targets : list URL
}.

#[global] Instance PortConfig_eq_dec : EqDecision PortConfig.
Proof. solve_decision. Defined.

Definition GetTargets (p : PortConfig) : list URL := targets p.

(** Modelled from the spec: [PortConfig.GetFirstTarget] is [targets[0]];
    without targets it is the zero URL. *)
Definition GetFirstTarget (p : PortConfig) : URL :=
  match targets p with
  | u :: _ => u
  | [] => URL_zero
  end.

Definition AddTarget (u : URL) (p : PortConfig) : PortConfig :=
  mkPortConfig (ProxyProtocol p) (ProxyPort p) (PortTailscale p)
               (TLSValidate p) (IsRedirect p) (targets p ++ [u]).

Definition setIsRedirect (b : bool) (p : PortConfig) : PortConfig :=
  mkPortConfig (ProxyProtocol p) (ProxyPort p) (PortTailscale p)
               (TLSValidate p) b (targets p).

Definition setTLSValidate (b : bool) (p : PortConfig) : PortConfig :=
  mkPortConfig (ProxyProtocol p) (ProxyPort p) (PortTailscale p)
               b (IsRedirect p) (targets p).

Definition setTailscale (t : TailscalePort) (p : PortConfig) : PortConfig :=
  mkPortConfig (ProxyProtocol p) (ProxyPort p) t
               (TLSValidate p) (IsRedirect p) (targets p).

Record Tailscale : Set := mkTailscale {
  Ephemeral : bool;
  RunWebClient : bool;
  Verbose : bool;
  AuthKey : string;
  Tags : string
}.

#[global] Instance Tailscale_eq_dec : EqDecision Tailscale.
Proof. solve_decision. Defined.

Record Dashboard : Set := mkDashboard {
  Visible : bool;
  Label : string;
  Icon : string
}.

#[global] Instance Dashboard_eq_dec : EqDecision Dashboard.
Proof. solve_decision. Defined.

(** Modelled from the spec: [model.Config], the normalized proxy
    configuration of section 3. *)
Record Config : Type := mkConfig {
  TargetID : string;
  Hostname : string;
  TargetProvider : string;
  ProxyProvider : string;
  ProxyAccessLog : bool;
  CfgTailscale : Tailscale;
  CfgDashboard : Dashboard;
  Ports : gmap string PortConfig
}.

#[global] Instance Config_eq_dec : EqDecision Config.
Proof. solve_decision. Defined.

End model.

Export model.

(** Modelled from the spec: the constructors of package [internal/model],
    which is not part of the sources at hand, are parameters as well.
    [NewPortShortLabel] reads the port key of a list entry
    (["<proxy port>/<proxy protocol>"]) and returns a port configuration
    together with the error, if any; the sources go on with the returned
    value in both cases. *)
Class ModelPkg : Type := {
  NewConfig : Res Config;
  NewPortShortLabel : string → PortConfig * option string
}.

(** ** Packages [net/url], [net/textproto] and [net/http]

    The parts of the Go standard library that the sources call, at the level
    of detail the sources depend on. *)

Module url.

(** The text from the last colon on, if there is one. *)
Fixpoint lastColon (s : string) : option string :=
  match s with
  | EmptyString => None
  | String c s' =>
      match lastColon s' with
      | Some r => Some r
      | None => if Ascii.eqb c ":"%char then Some s else None
      end
  end.

Definition isDigit (c : ascii) : bool :=
  let n := nat_of_ascii c in (48 <=? n)%nat && (n <=? 57)%nat.

Fixpoint allDigits (s : string) : bool :=
  match s with
  | EmptyString => true
  | String c s' => isDigit c && allDigits s'
  end.

(** [validOptionalPort]: empty, or a colon followed by digits only. *)
Definition validOptionalPort (port : string) : bool :=
  match port with
  | EmptyString => true
  | String c rest => Ascii.eqb c ":"%char && allDigits rest
  end.

(** [URL.Port]: the text after the last colon of [Host] when it is a valid
    port, else the empty string. *)
Definition Port (u : URL) : string :=
  match lastColon (Host u) with
  | Some (String _ p as cp) => if validOptionalPort cp then p else ""
  | _ => ""
  end.

(** [URL.String] for a URL made of a scheme, a host and a path, none of
    which needs escaping. *)
Definition String (u : URL) : string :=
  (if decide (Scheme u = "") then "" else Scheme u ++ ":") ++
  (if decide (Scheme u = "" ∧ Host u = "") then ""
   else if decide (Host u = "" ∧ Path u = "") then "" else "//" ++ Host u) ++
  (match Path u with
   | String c _ =>
       if Ascii.eqb c "/"%char then ""
       else if decide (Host u = "") then "" else "/"
   | EmptyString => ""
   end) ++
  Path u.

End url.

Module textproto.

Definition isLower (c : ascii) : bool :=
  let n := nat_of_ascii c in (97 <=? n)%nat && (n <=? 122)%nat.

Definition isUpper (c : ascii) : bool :=
  let n := nat_of_ascii c in (65 <=? n)%nat && (n <=? 90)%nat.

(** [validHeaderFieldByte]: the token characters of RFC 7230. *)
Definition validHeaderFieldByte (c : ascii) : bool :=
  isLower c || isUpper c || url.isDigit c ||
  bool_decide (c ∈ list_ascii_of_string "!#$%&'*+-.^_`|~").

Fixpoint allValid (s : string) : bool :=
  match s with
  | EmptyString => true
  | String c s' => validHeaderFieldByte c && allValid s'
  end.

Definition toUpper (c : ascii) : ascii :=
  if isLower c then ascii_of_nat (nat_of_ascii c - 32) else c.

Definition toLower (c : ascii) : ascii :=
  if isUpper c then ascii_of_nat (nat_of_ascii c + 32) else c.

Fixpoint canon (upper : bool) (s : string) : string :=
  match s with
  | EmptyString => EmptyString
  | String c s' =>
      let c' := if upper then toUpper c else toLower c in
      String c' (canon (Ascii.eqb c' "-"%char) s')
  end.

(** [CanonicalMIMEHeaderKey]: a key with a byte that is no token character
    is returned as it is; otherwise the first letter and every letter after
    a hyphen are upper case, the others lower case. *)
Definition CanonicalMIMEHeaderKey (s : string) : string :=
  if allValid s then canon true s else s.

End textproto.

Module http.

(** [http.Header]: canonical key to the list of its values. *)
Abbreviation Header := (gmap string (list string)).

Definition Header_Set (k v : string) (h : Header) : Header :=
  <[textproto.CanonicalMIMEHeaderKey k := [v]]> h.

Definition Header_Del (k : string) (h : Header) : Header :=
  delete (textproto.CanonicalMIMEHeaderKey k) h.

(** [Header.Values]: the values of a key, [None] when it is absent. *)
Definition Header_Values (k : string) (h : Header) : option (list string) :=
  h !! textproto.CanonicalMIMEHeaderKey k.

(** The values a [context.Context] carries; the sources store one, the
    identity of the peer. *)
Record Context : Set := mkContext { ctxWhois : option Whois }.

Record Request : Type := mkRequest {
  Method : string;
  ReqHost : string;
  RemoteAddr : string;
  ReqPath : string;
  ReqTLS : bool;
  ReqHeader : Header;
  ReqContext : Context
}.

Definition WithContext (ctx : Context) (r : Request) : Request :=
  mkRequest (Method r) (ReqHost r) (RemoteAddr r) (ReqPath r) (ReqTLS r)
            (ReqHeader r) ctx.

Record Response : Type := mkResponse {
  StatusCode : Z;
  RespHeader : Header
}.

Definition StatusMovedPermanently : Z := 301.

Definition isASCII (c : ascii) : bool := (nat_of_ascii c <? 128)%nat.

Definition hexDigit (n : nat) : ascii :=
  if (n <? 10)%nat then ascii_of_nat (48 + n) else ascii_of_nat (87 + n).

(** [hexEscapeNonASCII]: every byte from 0x80 on becomes [%xx]. *)
Fixpoint hexEscapeNonASCII (s : string) : string :=
  match s with
  | EmptyString => EmptyString
  | String c s' =>
      if isASCII c then String c (hexEscapeNonASCII s')
      else
        let n := nat_of_ascii c in
        String "%"%char
          (String (hexDigit (n / 16))
             (String (hexDigit (n mod 16)) (hexEscapeNonASCII s')))
  end.

(** The request [httputil.ReverseProxy] sends upstream. *)
Record OutRequest : Type := mkOutRequest {
  OutURL : URL;
  OutHost : string;
  OutHeader : Header
}.

End http.

Export http.

(** ** The world outside the sources

    Calls into the Go standard library, the operating system and the mesh
    library whose results the sources only pass along are parameters of the
    development: every statement below holds for all of them. *)

(** The user profile in the answer of tailscale's [WhoIs]. *)
Record UserProfile : Set := mkUserProfile {
  LoginName : string;
  ProfileDisplayName : string;
  UserID : string;
  ProfilePic : string
}.

Inductive ListenerKind : Set := ListenFunnel | ListenTLS | Listen.

Class World : Type := {
  (** [net/url.Parse]; [None] stands for an error. *)
  url_Parse : string → option URL;
  (** What [http.Redirect] makes of a relative URL: its resolution against
      the path of the request. *)
  redirect_resolve : string → string → string;
  (** [os.Hostname]; [None] stands for an error. *)
  os_Hostname : option string;
  (** The client address of [net.SplitHostPort(r.RemoteAddr)]. *)
  clientIP : string → option string;
  (** The header of [r.Out] as [httputil.ReverseProxy] hands it to
      [Rewrite]: a copy of the inbound one without the hop-by-hop and the
      forwarding headers. *)
  outHeader : Header → Header;
  (** The path of [r.Out] after [SetURL]. *)
  joinPath : string → string → string;
  (** The upstream's answer. *)
  RoundTrip : OutRequest → Response;
  (** [local.Client.WhoIs] for a remote address. *)
  lc_WhoIs : string → Res UserProfile;
  (** [tsnet.Server.Start] followed by [LocalClient], for a hostname. *)
  tsServer_Start : string → option string;
  (** The three [tsnet.Server.Listen...] calls, for a hostname, a network
      and a port. *)
  tsServer_Listen : ListenerKind → string → string → Z → option string
}.

(** [http.Redirect]: a URL that parses to one without scheme and host is
    relative and is resolved against the path of the request; the result,
    with its bytes outside ASCII escaped, is the [Location] header of the
    reply, whose status is [code]. *)
Definition http_Redirect `{World} (r : Request) (target : string) (code : Z)
    : Response :=
  let location :=
    match url_Parse target with
    | Some u =>
        if bool_decide (Scheme u = "" ∧ Host u = "")
        then redirect_resolve (ReqPath r) target
        else target
    | None => target
    end in
  mkResponse code (Header_Set "Location" (hexEscapeNonASCII location) ∅).

(** ** Package [consts] *)

Module consts.

(** Modelled from the spec: the names of the injected headers, fixed in
    section 6; package [internal/consts] is not part of the sources at
    hand. *)
Definition HeaderUsername : string := "X-Username".
Definition HeaderDisplayName : string := "X-Display-Name".
Definition HeaderProfilePicURL : string := "X-Profile-Pic-URL".

End consts.

(** ** The identity in the request context *)

(** Modelled from the spec: [model.WhoisNewContext] is not part of the
    sources at hand.  By section 4.3 the wrapping middleware sets the
    context from the answer of [whois]: the new context holds that answer. *)
Definition WhoisNewContext (ctx : Context) (who : Whois) : Context :=
  mkContext (Some who).

(** Modelled from the spec: [model.WhoisFromContext] is not part of the
    sources at hand either, and the sources fix nothing of it but its
    type: the identity it finds in a context, and whether it found one.
    It is a parameter, so that no statement below depends on how it tells
    whether the context "carries a mesh identity" (section 4.3).  The two
    readings at hand are [storedWhois], the lookup that reports whatever
    the context holds, and [nonEmptyWhois], the lookup that reports an
    identity other than the empty one. *)
Class WhoisContext : Type := {
  WhoisFromContext : Context → Whois * bool
}.

Definition storedWhois : WhoisContext := {|
  WhoisFromContext ctx :=
    match ctxWhois ctx with
    | Some who => (who, true)
    | None => (Whois_zero, false)
    end
|}.

Definition nonEmptyWhois : WhoisContext := {|
  WhoisFromContext ctx :=
    match ctxWhois ctx with
    | Some who => (who, bool_decide (who ≠ Whois_zero))
    | None => (Whois_zero, false)
    end
|}.

(** ** Package [targetproviders] *)

Module targetproviders.

(** [ActionType], numbered from 1 by [iota + 1]. *)
Inductive ActionType : Set :=
  | ActionStartProxy
  | ActionStopProxy
  | ActionRestartProxy
  | ActionStartProt
  | ActionStopPrort
  | ActionRestartPort.

#[global] Instance ActionType_eq_dec : EqDecision ActionType.
Proof. solve_decision. Defined.

Definition ActionType_int (a : ActionType) : Z :=
  match a with
  | ActionStartProxy => 1
  | ActionStopProxy => 2
  | ActionRestartProxy => 3
  | ActionStartProt => 4
  | ActionStopPrort => 5
  | ActionRestartPort => 6
  end.

(** [TargetEvent].  The provider an event points to is represented by the
    name under which the manager holds it. *)
Record TargetEvent : Set := mkTargetEvent {
  EvTargetProvider : string;
  EvID : string;
  Action : ActionType
}.

#[global] Instance TargetEvent_eq_dec : EqDecision TargetEvent.
Proof. solve_decision. Defined.

(** The interface [TargetProvider]; [WatchEvents] is the source of the
    events and has no part in their handling.  [Close] returns the events
    it sends on the events channel. *)
Class TargetProvider (TP : Type) : Type := {
  GetDefaultProxyProviderName : TP → string;
  Close : TP → TP * list TargetEvent;
  AddTarget : string → TP → TP * Res Config;
  DeleteProxy : string → TP → TP * option string
}.

End targetproviders.

Export targetproviders.

(** ** Package [proxyproviders] and its tailscale implementation *)

Module proxyproviders.

Record Listener : Set := mkListener {
  lKind : ListenerKind;
  lNetwork : string;
  lPort : Z
}.

(** [tailscale.Proxy], the mesh endpoint of one proxy: its configuration,
    and whether it was started and closed. *)
Record Endpoint : Type := mkEndpoint {
  config : Config;
  started : bool;
  closed : bool
}.

Definition ErrProxyPortNotFound : string := "proxy port not found".

Definition Endpoint_Start `{World} (p : Endpoint) : Endpoint * option string :=
  match tsServer_Start (Hostname (config p)) with
  | Some err => (p, Some err)
  | None => (mkEndpoint (config p) true (closed p), None)
  end.

Definition Endpoint_Close (p : Endpoint) : Endpoint :=
  mkEndpoint (config p) (started p) true.

Definition Endpoint_GetListener `{World} (port : string) (p : Endpoint)
    : Res Listener :=
  match Ports (config p) !! port with
  | None => Err ErrProxyPortNotFound
  | Some portCfg =>
      let network :=
        if bool_decide (ProxyProtocol portCfg = "http"
                        ∨ ProxyProtocol portCfg = "https")
        then "tcp" else ProxyProtocol portCfg in
      let kind :=
        if Funnel (PortTailscale portCfg) then ListenFunnel
        else if bool_decide (ProxyProtocol portCfg = "https") then ListenTLS
        else Listen in
      match tsServer_Listen kind (Hostname (config p)) network
                            (ProxyPort portCfg) with
      | Some err => Err err
      | None => Ok (mkListener kind network (ProxyPort portCfg))
      end
  end.

(** [tailscale.Proxy.Whois]: the empty identity when the lookup fails. *)
Definition Endpoint_Whois `{World} (r : Request) : Whois :=
  match lc_WhoIs (RemoteAddr r) with
  | Err _ => Whois_zero
  | Ok who =>
      mkWhois (ProfileDisplayName who) (LoginName who) (UserID who)
              (ProfilePic who)
  end.

(** The interface [Provider]: the factory of endpoints. *)
Class Provider (PP : Type) : Type := {
  NewProxy : PP → Config → Res Endpoint
}.

(** [tailscale.Client]; its [NewProxy] never fails. *)
Record Client : Set := mkClient {
  ClientHostname : string;
  ClientAuthKey : string
}.

#[global] Instance tailscale_Provider : Provider Client := {
  NewProxy _ cfg := Ok (mkEndpoint cfg false false)
}.

End proxyproviders.

Export proxyproviders.

(** ** Package [proxymanager]: port workers *)

Module proxymanager.

(** The handlers the sources build: the reverse proxy with the [Rewrite] of
    [newPortProxy], the two middlewares around it, and the redirect of
    [newPortRedirect]. *)
Inductive Handler : Type :=
  | ReverseProxy (pconfig : PortConfig)
  | ProviderUserMiddleware (next : Handler)
  | LoggerMiddleware (next : Handler)
  | RedirectHandler (pconfig : PortConfig).

(** What serving one request does: the requests sent upstream, and the
    reply to the client. *)
Record Exchange : Type := mkExchange {
  sent : list OutRequest;
  reply : Response
}.

(** [ProxyRequest.SetXForwarded]. *)
Definition SetXForwarded `{World} (rin : Request) (h : Header) : Header :=
  let h :=
    match clientIP (RemoteAddr rin) with
    | Some ip =>
        let prior := default [] (h !! "X-Forwarded-For") in
        let ip :=
          match prior with
          | [] => ip
          | _ => String.concat ", " prior ++ ", " ++ ip
          end in
        Header_Set "X-Forwarded-For" ip h
    | None => Header_Del "X-Forwarded-For" h
    end in
  let h := Header_Set "X-Forwarded-Host" (ReqHost rin) h in
  Header_Set "X-Forwarded-Proto" (if ReqTLS rin then "https" else "http") h.

(** The [Rewrite] function of the reverse proxy of [newPortProxy]. *)
Definition Rewrite `{World} `{WhoisContext} (pconfig : PortConfig)
    (rin : Request) : OutRequest :=
  (* r.SetURL(pconfig.GetFirstTarget()) *)
  let target := GetFirstTarget pconfig in
  let outURL :=
    mkURL (Scheme target) (Host target)
          (joinPath (Path target) (ReqPath rin)) in
  (* r.Out.Host = r.In.Host *)
  let outHost := ReqHost rin in
  (* r.Out.Header["X-Forwarded-For"] = r.In.Header["X-Forwarded-For"] *)
  let h := outHeader (ReqHeader rin) in
  let h :=
    <["X-Forwarded-For" := default [] (ReqHeader rin !! "X-Forwarded-For")]>
      h in
  let h :=
    match WhoisFromContext (ReqContext rin) with
    | (user, true) =>
        let h := Header_Set consts.HeaderUsername (Username user) h in
        let h := Header_Set consts.HeaderDisplayName (DisplayName user) h in
        Header_Set consts.HeaderProfilePicURL (ProfilePicURL user) h
    | (_, false) => h
    end in
  mkOutRequest outURL outHost (SetXForwarded rin h).

(** [ServeHTTP] of a handler.  [whois] is the [Whois] method of the endpoint
    of the proxy the handler belongs to; the access-log middleware only
    logs. *)
Fixpoint ServeHTTP `{World} `{WhoisContext} (whois : Request → Whois)
    (h : Handler) (r : Request) : Exchange :=
  match h with
  | ReverseProxy pconfig =>
      let out := Rewrite pconfig r in
      mkExchange [out] (RoundTrip out)
  | ProviderUserMiddleware next =>
      let who := whois r in
      let ctx := WhoisNewContext (ReqContext r) who in
      ServeHTTP whois next (WithContext ctx r)
  | LoggerMiddleware next => ServeHTTP whois next r
  | RedirectHandler pconfig =>
      mkExchange []
        (http_Redirect r (url.String (GetFirstTarget pconfig))
                       StatusMovedPermanently)
  end.

(** The struct [port]: the HTTP server (its handler), the listener once
    bound, and what [close] did to them. *)
Record port : Type := mkPort {
  httpServer : option Handler;
  listener : option Listener;
  serverShutdown : bool;
  listenerClosed : bool;
  portCancelled : bool
}.

Definition newPortProxy (pconfig : PortConfig) (accessLog : bool)
    (whoisFunc : Handler → Handler) : port :=
  let reverseProxy := ReverseProxy pconfig in
  let handler := whoisFunc reverseProxy in
  let handler := if accessLog then LoggerMiddleware handler else handler in
  mkPort (Some handler) None false false false.

Definition newPortRedirect (pconfig : PortConfig) : port :=
  mkPort (Some (RedirectHandler pconfig)) None false false false.

(** [port.startWithListener], up to the blocking [Serve]. *)
Definition startWithListener (l : Listener) (p : port) : port :=
  mkPort (httpServer p) (Some l) (serverShutdown p) (listenerClosed p)
         (portCancelled p).

(** [port.close]. *)
Definition port_close (p : port) : port :=
  mkPort (httpServer p) (listener p)
         (if httpServer p is Some _ then true else serverShutdown p)
         (if listener p is Some _ then true else listenerClosed p)
         true.

(** ** Package [proxymanager]: the proxy *)

(** The events handed to [onUpdate], in order, next to a result. *)
Definition Pub (A : Type) : Type := A * list ProxyEvent.

#[global] Instance Pub_ret : MRet Pub := λ A a, (a, []).

#[global] Instance Pub_bind : MBind Pub :=
  λ A B f m, let '(b, es) := f m.1 in (b, (m.2 ++ es)%list).

(** The struct [Proxy].  [onUpdate] tells whether the callback is set; the
    events it receives are those of [Pub].  [cancelled] tells whether
    [cancel], the cancel function of [ctx], was called. *)
Record Proxy : Type := mkProxy {
  onUpdate : bool;
  providerProxy : Endpoint;
  Config : model.Config;
  cancelled : bool;
  ports : gmap string port;
  status : ProxyStatus
}.

Definition setStatus (st : ProxyStatus) (proxy : Proxy) : Pub Proxy :=
  if decide (status proxy = st) then mret proxy
  else
    (mkProxy (onUpdate proxy) (providerProxy proxy) (Config proxy)
             (cancelled proxy) (ports proxy) st,
     if onUpdate proxy
     then [mkProxyEvent (Hostname (Config proxy)) st]
     else []).

Definition cancel (proxy : Proxy) : Proxy :=
  mkProxy (onUpdate proxy) (providerProxy proxy) (Config proxy) true
          (ports proxy) (status proxy).

(** [Proxy.close]: closes every port and the endpoint (the provider never
    returns a nil endpoint, so the guard of the source always passes). *)
Definition close (proxy : Proxy) : Proxy :=
  mkProxy (onUpdate proxy) (Endpoint_Close (providerProxy proxy))
          (Config proxy) (cancelled proxy) (port_close <$> ports proxy)
          (status proxy).

(** [Proxy.Close]. *)
Definition Proxy_Close (proxy : Proxy) : Pub Proxy :=
  proxy ← setStatus ProxyStatusStopping proxy;
  let proxy := cancel proxy in
  let proxy := close proxy in
  setStatus ProxyStatusStopped proxy.

Definition GetStatus (proxy : Proxy) : ProxyStatus := status proxy.

(** [Proxy.initPorts]: one port worker per configured port. *)
Definition initPorts (proxy : Proxy) : Proxy :=
  mkProxy (onUpdate proxy) (providerProxy proxy) (Config proxy)
          (cancelled proxy)
          ((λ v, if IsRedirect v then newPortRedirect v
                 else newPortProxy v (ProxyAccessLog (Config proxy))
                                   ProviderUserMiddleware)
             <$> Ports (Config proxy))
          (status proxy).

(** [NewProxy].  The status of a new proxy is the zero value of
    [ProxyStatus]. *)
Definition NewProxy `{Provider PP} (pcfg : model.Config) (proxyProvider : PP)
    : Res Proxy :=
  match proxyproviders.NewProxy proxyProvider pcfg with
  | Err e => Err ("error initializing proxy on proxyProvider: " ++ e)
  | Ok pProvider =>
      Ok (initPorts (mkProxy false pProvider pcfg false ∅
                             ProxyStatusInitializing))
  end.

Definition startPort (name : string) (l : Listener) (proxy : Proxy) : Proxy :=
  mkProxy (onUpdate proxy) (providerProxy proxy) (Config proxy)
          (cancelled proxy) (alter (startWithListener l) name (ports proxy))
          (status proxy).

(** [Proxy.start], the body of the goroutine that [Proxy.Start] spawns. *)
Definition Proxy_start `{World} (proxy : Proxy) : Pub Proxy :=
  let portsConfig := Ports (Config proxy) in
  let portsCount := size (ports proxy) in
  if decide (portsCount = 0%nat) then setStatus ProxyStatusError proxy
  else
    match Endpoint_Start (providerProxy proxy) with
    | (ep, Some err) =>
        Proxy_Close (mkProxy (onUpdate proxy) ep (Config proxy)
                             (cancelled proxy) (ports proxy) (status proxy))
    | (ep, None) =>
        let proxy := mkProxy (onUpdate proxy) ep (Config proxy)
                             (cancelled proxy) (ports proxy) (status proxy) in
        mret (foldr (λ k proxy,
                       match Endpoint_GetListener k (providerProxy proxy) with
                       | Err _ => proxy
                       | Ok l => startPort k l proxy
                       end)
                    proxy (map_to_list portsConfig).*1)
    end.

(** The loop of the goroutine of [Proxy.Start]: every event of the endpoint
    sets the status. *)
Definition forwardEvents (events : list ProxyEvent) (proxy : Proxy)
    : Pub Proxy :=
  foldl (λ acc ev, proxy ← acc; setStatus (Status ev) proxy)
        (mret proxy) events.

(** [n] calls of [Close], one after the other. *)
Fixpoint CloseTimes (n : nat) (proxy : Proxy) : Pub Proxy :=
  match n with
  | O => mret proxy
  | S n' => proxy ← Proxy_Close proxy; CloseTimes n' proxy
  end.

(** ** Package [proxymanager]: the manager *)

Inductive LogValue : Set :=
  | VStr (s : string)
  | VInt (z : Z).

Record LogEntry : Set := mkLogEntry {
  level : string;
  fields : list (string * LogValue);
  msg : string
}.

Definition ErrProxyProviderNotFound : string := "proxyProvider not found".
Definition ErrTargetProviderNotFound : string := "targetProvider not found".

(** The struct [ProxyManager].  [bus] is the sequence of the events handed
    to [broadcastStatusEvents], which offers each of them to every
    subscriber; [log] is what the manager wrote to its logger. *)
Record ProxyManager (TP PP : Type) : Type := mkProxyManager {
  Proxies : gmap string Proxy;
  TargetProviders : gmap string TP;
  ProxyProviders : gmap string PP;
  bus : list ProxyEvent;
  log : list LogEntry
}.
Arguments mkProxyManager {TP PP}.
Arguments Proxies {TP PP}.
Arguments TargetProviders {TP PP}.
Arguments ProxyProviders {TP PP}.
Arguments bus {TP PP}.
Arguments log {TP PP}.

Section Manager.

Context {TP PP : Type} `{!World} `{!TargetProvider TP} `{!Provider PP}.

(** [config.Config.DefaultProxyProvider], read once at startup. *)
Variable config_DefaultProxyProvider : string.

Abbreviation PM := (ProxyManager TP PP).

Definition NewProxyManager : PM := mkProxyManager ∅ ∅ ∅ [] [].

Definition logs (e : LogEntry) (pm : PM) : PM :=
  mkProxyManager (Proxies pm) (TargetProviders pm) (ProxyProviders pm)
                 (bus pm) (log pm ++ [e])%list.

Definition setProxies (m : gmap string Proxy) (pm : PM) : PM :=
  mkProxyManager m (TargetProviders pm) (ProxyProviders pm) (bus pm) (log pm).

Definition setTargetProviders (m : gmap string TP) (pm : PM) : PM :=
  mkProxyManager (Proxies pm) m (ProxyProviders pm) (bus pm) (log pm).

Definition setProxyProviders (m : gmap string PP) (pm : PM) : PM :=
  mkProxyManager (Proxies pm) (TargetProviders pm) m (bus pm) (log pm).

(** [broadcastStatusEvents]. *)
Definition broadcastStatusEvents (event : ProxyEvent) (pm : PM) : PM :=
  mkProxyManager (Proxies pm) (TargetProviders pm) (ProxyProviders pm)
                 (bus pm ++ [event])%list (log pm).

(** The callback every proxy of the manager gets: each event of a [Pub]
    computation is broadcast. *)
Definition broadcastAll (events : list ProxyEvent) (pm : PM) : PM :=
  foldl (λ pm ev, broadcastStatusEvents ev pm) pm events.

Definition addTargetProvider (provider : TP) (name : string) (pm : PM) : PM :=
  setTargetProviders (<[name := provider]> (TargetProviders pm)) pm.

Definition addProxyProvider (provider : PP) (name : string) (pm : PM) : PM :=
  setProxyProviders (<[name := provider]> (ProxyProviders pm)) pm.

(** [addProxy]: the assignment [pm.Proxies[proxy.Config.Hostname] = proxy]. *)
Definition addProxy (proxy : Proxy) (pm : PM) : PM :=
  setProxies (<[Hostname (Config proxy) := proxy]> (Proxies pm)) pm.

(** [removeProxy]. *)
Definition removeProxy (hostname : string) (pm : PM) : PM :=
  match Proxies pm !! hostname with
  | None => pm
  | Some proxy =>
      let '(_, events) := Proxy_Close proxy in
      let pm := broadcastAll events pm in
      let pm := setProxies (delete hostname (Proxies pm)) pm in
      logs (mkLogEntry "debug" [("proxy", VStr hostname)] "Removed proxy") pm
  end.

(** [getProxyByTargetID]: the first proxy of the traversal with that target
    id. *)
Definition getProxyByTargetID (targetID : string) (pm : PM) : option Proxy :=
  snd <$> List.find (λ kp, bool_decide (TargetID (Config kp.2) = targetID))
                    (map_to_list (Proxies pm)).

(** [getProxyProvider]. *)
Definition getProxyProvider (proxy : model.Config) (pm : PM) : Res PP :=
  if bool_decide (ProxyProvider proxy ≠ "") then
    match ProxyProviders pm !! ProxyProvider proxy with
    | None => Err ErrProxyProviderNotFound
    | Some p => Ok p
    end
  else
    match TargetProviders pm !! model.TargetProvider proxy with
    | None => Err ErrTargetProviderNotFound
    | Some targetProvider =>
        match ProxyProviders pm
                !! GetDefaultProxyProviderName targetProvider with
        | Some p => Ok p
        | None =>
            match ProxyProviders pm !! config_DefaultProxyProvider with
            | Some p => Ok p
            | None => Err ErrProxyProviderNotFound
            end
        end
    end.

Definition withOnUpdate (p : Proxy) : Proxy :=
  mkProxy true (providerProxy p) (Config p) (cancelled p) (ports p) (status p).

(** [newAndStartProxy].  Its last statement, [p.Start()], spawns the
    goroutine of [Proxy_start] and [forwardEvents]. *)
Definition newAndStartProxy (name : string) (proxyConfig : model.Config)
    (pm : PM) : PM :=
  let pm := logs (mkLogEntry "debug" [("proxy", VStr name)] "Creating proxy")
                 pm in
  match getProxyProvider proxyConfig pm with
  | Err err =>
      logs (mkLogEntry "error" [("error", VStr err)]
                       "Error to get ProxyProvider") pm
  | Ok proxyProvider =>
      match NewProxy proxyConfig proxyProvider with
      | Err err =>
          logs (mkLogEntry "error" [("error", VStr err)]
                           "Error creating proxy") pm
      | Ok p =>
          let p := withOnUpdate p in
          let pm := addProxy p pm in
          broadcastStatusEvents
            (mkProxyEvent (Hostname (Config p)) ProxyStatusInitializing) pm
      end
  end.

(** [eventStart].  An event points to a provider the manager holds, so the
    first branch is taken by no event the manager reads. *)
Definition eventStart (event : TargetEvent) (pm : PM) : PM :=
  let pm := logs (mkLogEntry "debug" [("targetID", VStr (EvID event))]
                             "Adding target") pm in
  match TargetProviders pm !! EvTargetProvider event with
  | None => pm
  | Some provider =>
      let '(provider, r) := AddTarget (EvID event) provider in
      let pm :=
        setTargetProviders
          (<[EvTargetProvider event := provider]> (TargetProviders pm)) pm in
      match r with
      | Err err =>
          logs (mkLogEntry "error"
                  [("error", VStr err); ("targetID", VStr (EvID event))]
                  "Error adding target") pm
      | Ok pcfg => newAndStartProxy (Hostname pcfg) pcfg pm
      end
  end.

(** [eventStop].  [None] is the panic of the call of [DeleteProxy] on the
    nil interface that the lookup of an unknown provider name yields. *)
Definition eventStop (event : TargetEvent) (pm : PM) : option PM :=
  let pm := logs (mkLogEntry "debug" [("targetID", VStr (EvID event))]
                             "Stopping target") pm in
  match getProxyByTargetID (EvID event) pm with
  | None =>
      Some (logs (mkLogEntry "error"
                    [("action", VInt (ActionType_int (Action event)));
                     ("target", VStr (EvID event))]
                    "No proxy found for target") pm)
  | Some proxy =>
      match TargetProviders pm !! model.TargetProvider (Config proxy) with
      | None => None
      | Some targetprovider =>
          let '(targetprovider, err) :=
            DeleteProxy (EvID event) targetprovider in
          let pm :=
            setTargetProviders
              (<[model.TargetProvider (Config proxy) := targetprovider]>
                 (TargetProviders pm)) pm in
          match err with
          | Some err =>
              Some (logs (mkLogEntry "error" [("error", VStr err)]
                                     "No proxy found for target") pm)
          | None => Some (removeProxy (Hostname (Config proxy)) pm)
          end
      end
  end.

(** [HandleProxyEvent]. *)
Definition HandleProxyEvent (event : TargetEvent) (pm : PM) : option PM :=
  match Action event with
  | ActionStartProxy => Some (eventStart event pm)
  | ActionStopProxy => eventStop event pm
  | ActionRestartProxy =>
      pm ← eventStop event pm;
      Some (eventStart event pm)
  | _ => Some pm
  end.

(** What a goroutine of a registered proxy does to the manager: the proxy
    changes, and the events it publishes are broadcast. *)
Definition proxyStep (hostname : string) (f : Proxy → Pub Proxy) (pm : PM)
    : PM :=
  match Proxies pm !! hostname with
  | None => pm
  | Some proxy =>
      let '(proxy, events) := f proxy in
      broadcastAll events (setProxies (<[hostname := proxy]> (Proxies pm)) pm)
  end.

(** The states the manager reaches: from the empty manager, by registering
    providers, handling target events, the steps of the goroutines of its
    proxies, and the removals of [StopAllProxies].  The goroutines that
    [p.Start()] spawns at the end of [newAndStartProxy] are those of
    [Proxy_start] ([reach_start]: the endpoint is started and the listeners
    are bound, or the proxy is closed), of the loop over the events of the
    endpoint ([reach_status]) and of the ports, which set the status
    [Error] when serving fails ([reach_status] again).  A proxy that a
    start event has replaced in the registry keeps its goroutines and its
    callback: what they publish reaches the bus ([reach_publish]). *)
Inductive reachable : PM → Prop :=
  | reach_new : reachable NewProxyManager
  | reach_addTargetProvider pm provider name :
      reachable pm → reachable (addTargetProvider provider name pm)
  | reach_addProxyProvider pm provider name :
      reachable pm → reachable (addProxyProvider provider name pm)
  | reach_event pm event pm' :
      reachable pm → HandleProxyEvent event pm = Some pm' → reachable pm'
  | reach_start pm hostname :
      reachable pm → reachable (proxyStep hostname Proxy_start pm)
  | reach_status pm hostname st :
      reachable pm → reachable (proxyStep hostname (setStatus st) pm)
  | reach_close pm hostname :
      reachable pm → reachable (proxyStep hostname Proxy_Close pm)
  | reach_publish pm event :
      reachable pm → reachable (broadcastStatusEvents event pm)
  | reach_remove pm hostname :
      reachable pm → reachable (removeProxy hostname pm).

(** What an observer of the manager sees: the registry, the providers and
    the status bus, not the log. *)
Definition observe (pm : PM)
    : gmap string Proxy * gmap string TP * gmap string PP * list ProxyEvent :=
  (Proxies pm, TargetProviders pm, ProxyProviders pm, bus pm).

End Manager.

End proxymanager.

Export proxymanager.

(** ** Package [targetproviders/list] *)

Module ListProvider.

(** A port of a list entry. *)
Record port : Set := mkPort {
  Targets : list string;
  Tailscale : TailscalePort;
  IsRedirect : bool;
  TLSValidate : bool
}.

#[global] Instance port_eq_dec : EqDecision port.
Proof. solve_decision. Defined.

(** An entry of the list file. *)
Record proxyConfig : Type := mkProxyConfig {
  Dashboard : model.Dashboard;
  Ports : gmap string port;
  ProxyProvider : string;
  PCTailscale : model.Tailscale
}.

#[global] Instance proxyConfig_eq_dec : EqDecision proxyConfig.
Proof. solve_decision. Defined.

(** The struct [Client]: the entries of the file as last loaded
    ([configProxies]), the entries a proxy was made for ([proxies]), the
    name of the provider and the default mesh provider of its
    configuration. *)
Record Client : Type := mkClient {
  configProxies : gmap string proxyConfig;
  proxies : gmap string proxyConfig;
  name : string;
  DefaultProxyProvider : string
}.

(** Modelled from the spec: [model.DefaultProxyAccessLog], a constant of
    the package that is not part of the sources at hand; the documented
    default of the access log is on. *)
Definition DefaultProxyAccessLog : bool := true.

(** A target of a list entry is kept when it parses and has both a scheme
    and a host. *)
Definition validTarget `{World} (target : string) : option URL :=
  match url_Parse target with
  | Some targetURL =>
      if bool_decide (Scheme targetURL = "" ∨ Host targetURL = "")
      then None else Some targetURL
  | None => None
  end.

(** The body of the loop of [getPorts] for the port [k] with the value [v]:
    the port configuration, or [None] when the port is dropped. *)
Definition getPort `{World} `{ModelPkg} (k : string) (v : port)
    : option PortConfig :=
  let port := (NewPortShortLabel k).1 in
  let port := setIsRedirect (IsRedirect v) port in
  let port :=
    foldl (λ port target,
             match validTarget target with
             | Some targetURL => model.AddTarget targetURL port
             | None => port
             end)
          port (Targets v) in
  if bool_decide (length (GetTargets port) = 0%nat) then None
  else
    let port := setTLSValidate (TLSValidate v) port in
    let port := setTailscale (Tailscale v) port in
    Some port.

(** [getPorts]. *)
Definition getPorts `{World} `{ModelPkg} (l : gmap string port)
    : gmap string PortConfig :=
  map_imap getPort l.

(** [addTarget]. *)
Definition addTarget (cfg : proxyConfig) (nm : string) (c : Client) : Client :=
  mkClient (configProxies c) (<[nm := cfg]> (proxies c)) (name c)
           (DefaultProxyProvider c).

(** The configuration [newProxyConfig] fills in for the entry [p] of the
    name [nm]. *)
Definition entryConfig `{World} `{ModelPkg} (nm : string) (p : proxyConfig)
    (c : Client) : model.Config :=
  let proxyProvider :=
    if bool_decide (ProxyProvider p ≠ "") then ProxyProvider p
    else DefaultProxyProvider c in
  let proxyAccessLog := DefaultProxyAccessLog in
  mkConfig nm nm (name c) proxyProvider proxyAccessLog (PCTailscale p)
           (Dashboard p) (getPorts (Ports p)).

(** [newProxyConfig]: every field of the configuration that [NewConfig]
    returns is assigned. *)
Definition newProxyConfig `{World} `{ModelPkg} (nm : string) (p : proxyConfig)
    (c : Client) : Client * Res model.Config :=
  match NewConfig with
  | Err err => (c, Err err)
  | Ok _ => (addTarget p nm c, Ok (entryConfig nm p c))
  end.

Definition AddTarget `{World} `{ModelPkg} (id : string) (c : Client)
    : Client * Res model.Config :=
  match configProxies c !! id with
  | None => (c, Err ("target " ++ id ++ " not found"))
  | Some proxy => newProxyConfig id proxy c
  end.

Definition DeleteProxy (id : string) (c : Client) : Client * option string :=
  match proxies c !! id with
  | None => (c, Some ("target " ++ id ++ " not found"))
  | Some _ =>
      (mkClient (configProxies c) (delete id (proxies c)) (name c)
                (DefaultProxyProvider c), None)
  end.

Definition GetDefaultProxyProviderName (c : Client) : string :=
  DefaultProxyProvider c.

(** [Close]: one stop event per entry of [proxies], sent on the events
    channel. *)
Definition Close (c : Client) : Client * list TargetEvent :=
  (c, (λ kv, mkTargetEvent (name c) kv.1 ActionStopProxy)
        <$> map_to_list (proxies c)).

#[global] Instance list_TargetProvider `{World} `{ModelPkg}
    : TargetProvider Client := {
  targetproviders.GetDefaultProxyProviderName := GetDefaultProxyProviderName;
  targetproviders.Close := Close;
  targetproviders.AddTarget := AddTarget;
  targetproviders.DeleteProxy := DeleteProxy
}.

End ListProvider.

(** ** Package [targetproviders/docker] *)

Module DockerProvider.

(** The struct [container]. *)
Record container : Type := mkContainer {
  ports : gmap string string;
  labels : gmap string string;
  image : string;
  id : string;
  targetProviderName : string;
  name : string;
  hostname : string;
  networkMode : string;
  defaultBridgeAddress : string;
  defaultTargetHostname : string;
  ipAddress : list string;
  gateways : list string;
  autodetect : bool
}.

(** The parts of the package that are not in the sources at hand, and the
    container engine.  [tryConnectContainer c scheme internalPort
    publishedPort try] is the outcome of the probe of the candidate
    addresses of [c] at the attempt number [try].  [ContainerInspect] is the
    inspection of a container followed by [newContainer], and
    [newProxyConfig] is [container.newProxyConfig], the derivation of the
    configuration from the labels of the container, whose helpers are
    missing. *)
Class DockerPkg : Type := {
  autoDetectTries : nat;
  tryConnectContainer :
    container → string → string → string → nat → Res URL;
  ContainerInspect : string → Res container;
  newProxyConfig : container → Res model.Config
}.

Definition ErrNoPortFoundInContainer : string := "no port found in container".
Definition ErrParse : string := "parse error".

Definition parse `{World} (s : string) : Res URL :=
  match url_Parse s with
  | Some u => Ok u
  | None => Err ErrParse
  end.

(** [getPublishedPort]: the published port of the first entry of the
    traversal whose key is the internal port; the empty string without
    one. *)
Definition getPublishedPort (c : container) (internalPort : string) : string :=
  match List.find (λ kv, bool_decide (kv.1 = internalPort))
                  (map_to_list (ports c)) with
  | Some (_, published) => published
  | None => ""
  end.

(** The loop of the auto detection over the attempts [tries]. *)
Fixpoint autoDetect `{DockerPkg} (c : container)
    (scheme internalPort publishedPort : string) (tries : list nat)
    : option URL :=
  match tries with
  | [] => None
  | try :: rest =>
      match tryConnectContainer c scheme internalPort publishedPort try with
      | Ok port => Some port
      | Err _ => autoDetect c scheme internalPort publishedPort rest
      end
  end.

(** The test of [getTargetURL] for the container being the host of the
    process itself. *)
Definition isOwnHost `{World} (c : container) : bool :=
  match os_Hostname with
  | Some osname => String.prefix osname (id c)
  | None => false
  end.

(** [getTargetURL]. *)
Definition getTargetURL `{World} `{DockerPkg} (c : container) (iPort : URL)
    : Res URL :=
  let internalPort := url.Port iPort in
  let publishedPort := getPublishedPort c internalPort in
  if bool_decide (internalPort = "" ∧ publishedPort = "")
  then Err ErrNoPortFoundInContainer
  else if isOwnHost c then parse ("http://127.0.0.1:" ++ internalPort)
  else
    match
      (if autodetect c
       then autoDetect c (Scheme iPort) internalPort publishedPort
                       (seq 0 autoDetectTries)
       else None)
    with
    | Some port => Ok port
    | None =>
        if bool_decide (networkMode c = "host" ∧ defaultBridgeAddress c ≠ "")
        then parse (Scheme iPort ++ "://" ++ defaultTargetHostname c ++ ":"
                    ++ internalPort)
        else if bool_decide (publishedPort = "")
        then Err ErrNoPortFoundInContainer
        else parse (Scheme iPort ++ "://" ++ defaultTargetHostname c ++ ":"
                    ++ publishedPort)
    end.

(** The connection to the container engine, [*client.Client]. *)
Record Connection : Set := mkConnection { connClosed : bool }.

(** The struct [Client]. *)
Record Client : Type := mkClient {
  docker : option Connection;
  containers : gmap string container;
  clientName : string;
  host : string;
  clientDefaultTargetHostname : string;
  defaultProxyProvider : string;
  defaultBridgeAdress : string;
  tryDockerInternalNetwork : bool
}.

Definition setDocker (d : option Connection) (c : Client) : Client :=
  mkClient d (containers c) (clientName c) (host c)
           (clientDefaultTargetHostname c) (defaultProxyProvider c)
           (defaultBridgeAdress c) (tryDockerInternalNetwork c).

Definition setContainers (m : gmap string container) (c : Client) : Client :=
  mkClient (docker c) m (clientName c) (host c)
           (clientDefaultTargetHostname c) (defaultProxyProvider c)
           (defaultBridgeAdress c) (tryDockerInternalNetwork c).

(** [Close]: closes the connection to the engine, and sends nothing. *)
Definition Close (c : Client) : Client * list TargetEvent :=
  match docker c with
  | Some _ => (setDocker (Some (mkConnection true)) c, [])
  | None => (c, [])
  end.

Definition addContainer (cont : container) (nm : string) (c : Client)
    : Client :=
  setContainers (<[nm := cont]> (containers c)) c.

Definition deleteContainer (nm : string) (c : Client) : Client :=
  setContainers (delete nm (containers c)) c.

(** [AddTarget] with [Client.newProxyConfig]: the container is recorded
    under its own id once its configuration is made. *)
Definition AddTarget `{DockerPkg} (i : string) (c : Client)
    : Client * Res model.Config :=
  match ContainerInspect i with
  | Err err => (c, Err ("error inspecting container: " ++ err))
  | Ok ctn =>
      match newProxyConfig ctn with
      | Err err => (c, Err ("error getting proxy config: " ++ err))
      | Ok pcfg => (addContainer ctn (id ctn) c, Ok pcfg)
      end
  end.

Definition DeleteProxy (i : string) (c : Client) : Client * option string :=
  match containers c !! i with
  | None => (c, Some ("container " ++ i ++ " not found"))
  | Some _ => (deleteContainer i c, None)
  end.

Definition GetDefaultProxyProviderName (c : Client) : string :=
  defaultProxyProvider c.

#[global] Instance docker_TargetProvider `{DockerPkg}
    : TargetProvider Client := {
  targetproviders.GetDefaultProxyProviderName := GetDefaultProxyProviderName;
  targetproviders.Close := Close;
  targetproviders.AddTarget := AddTarget;
  targetproviders.DeleteProxy := DeleteProxy
}.

End DockerProvider.

(** The target providers of the manager: one of the two implementations of
    the interface. *)
Inductive AnyTargetProvider : Type :=
  | DockerTarget (c : DockerProvider.Client)
  | ListTarget (c : ListProvider.Client).

#[global] Instance any_TargetProvider `{World} `{ModelPkg}
    `{DockerProvider.DockerPkg} : TargetProvider AnyTargetProvider := {
  GetDefaultProxyProviderName p :=
    match p with
    | DockerTarget c => GetDefaultProxyProviderName c
    | ListTarget c => GetDefaultProxyProviderName c
    end;
  Close p :=
    match p with
    | DockerTarget c => prod_map DockerTarget id (Close c)
    | ListTarget c => prod_map ListTarget id (Close c)
    end;
  AddTarget i p :=
    match p with
    | DockerTarget c => prod_map DockerTarget id (AddTarget i c)
    | ListTarget c => prod_map ListTarget id (AddTarget i c)
    end;
  DeleteProxy i p :=
    match p with
    | DockerTarget c => prod_map DockerTarget id (DeleteProxy i c)
    | ListTarget c => prod_map ListTarget id (DeleteProxy i c)
    end
}.

(** ** A small world to run the definitions in *)

Module Demo.

(** A parser for URLs of the shape [scheme://host/path]; any other text is
    a relative URL, made of a path only. *)
Definition demoParse (s : string) : option URL :=
  match String.index 0 "://" s with
  | Some i =>
      let scheme := substring 0 i s in
      let rest := substring (i + 3) (String.length s - (i + 3)) s in
      match String.index 0 "/" rest with
      | Some j =>
          Some (mkURL scheme (substring 0 j rest)
                      (substring j (String.length rest - j) rest))
      | None => Some (mkURL scheme rest "")
      end
  | None => Some (mkURL "" "" s)
  end.

Definition hopHeaders : list string :=
  ["Connection"; "Proxy-Connection"; "Keep-Alive"; "Proxy-Authenticate";
   "Proxy-Authorization"; "Te"; "Trailer"; "Transfer-Encoding"; "Upgrade";
   "Forwarded"; "X-Forwarded-For"; "X-Forwarded-Host"; "X-Forwarded-Proto"].

Definition alice : UserProfile :=
  mkUserProfile "alice@example.com" "Alice" "42" "https://example.com/a.png".

#[local] Instance demoWorld : World := {
  url_Parse := demoParse;
  redirect_resolve path target := path ++ target;
  os_Hostname := Some "0123456789ab";
  clientIP addr :=
    match String.index 0 ":" addr with
    | Some i => Some (substring 0 i addr)
    | None => None
    end;
  outHeader h := foldr delete h hopHeaders;
  joinPath a b := a ++ b;
  RoundTrip _ := mkResponse 200 ∅;
  lc_WhoIs addr :=
    if bool_decide (addr = "100.64.0.7:41000") then Ok alice
    else Err "no peer";
  tsServer_Start _ := None;
  tsServer_Listen _ _ _ _ := None
}.

Definition demoTailscale : model.Tailscale := mkTailscale false false false "" "".
Definition demoDashboard : model.Dashboard := mkDashboard true "" "".

#[local] Instance demoModel : ModelPkg := {
  NewConfig := Ok (mkConfig "" "" "" "" true demoTailscale demoDashboard ∅);
  NewPortShortLabel _ :=
    (mkPortConfig "https" 443 (mkTailscalePort false) true false [], None)
}.

Definition demoContainer : DockerProvider.container :=
  DockerProvider.mkContainer {["8080" := "32811"]} ∅ "nginx:latest" "c0ffee"
    "local" "/web" "web" "bridge" "172.17.0.1" "host.docker.internal"
    ["172.18.0.5"] ["172.18.0.1"] true.

Definition demoConfig : model.Config :=
  mkConfig "c0ffee" "web" "local" "" true demoTailscale demoDashboard ∅.

(** The probes find the container at its own address at the third
    attempt. *)
#[local] Instance demoDocker : DockerProvider.DockerPkg := {
  DockerProvider.autoDetectTries := 5;
  DockerProvider.tryConnectContainer c scheme internalPort publishedPort try :=
    if bool_decide (try = 2%nat)
    then Ok (mkURL scheme ("172.18.0.5:" ++ internalPort) "")
    else Err "connection refused";
  DockerProvider.ContainerInspect i :=
    if bool_decide (i = "c0ffee") then Ok demoContainer
    else Err "no such container";
  DockerProvider.newProxyConfig _ := Ok demoConfig
}.

(** A proxy of the hostname [web], running, with its callback set. *)
Definition demoProxy : Proxy :=
  mkProxy true (mkEndpoint demoConfig true false) demoConfig false ∅
          ProxyStatusRunning.

(** A proxy of the hostname [web] as [newAndStartProxy] registers it:
    initializing, with its callback set. *)
Definition demoProxyNew : Proxy :=
  mkProxy true (mkEndpoint demoConfig false false) demoConfig false ∅
          ProxyStatusInitializing.

(** Two list files that both have an entry [web], and one with an entry
    whose only target is no URL. *)
Definition entry (targets : list string) (redirect : bool)
    : ListProvider.proxyConfig :=
  ListProvider.mkProxyConfig demoDashboard
    {["80/http" := ListProvider.mkPort targets (mkTailscalePort false)
                                       redirect true]}
    "" demoTailscale.

Definition listOne : ListProvider.Client :=
  ListProvider.mkClient {["web" := entry ["http://10.0.0.1:8080"] false]} ∅
                        "one" "default".

Definition listTwo : ListProvider.Client :=
  ListProvider.mkClient
    {["web" := entry ["http://10.0.0.2:9090"] false;
      "bad" := entry ["not a url"] false]} ∅ "two" "default".

Definition demoDockerClient : DockerProvider.Client :=
  DockerProvider.mkClient (Some (DockerProvider.mkConnection false))
    {["c0ffee" := demoContainer]} "local" "unix:///var/run/docker.sock"
    "host.docker.internal" "default" "172.17.0.1" false.

Definition demoManager : ProxyManager AnyTargetProvider proxyproviders.Client :=
  addProxyProvider (proxyproviders.mkClient "default" "") "default"
    (addTargetProvider (ListTarget listTwo) "two"
       (addTargetProvider (ListTarget listOne) "one" NewProxyManager)).

(** A configuration whose only port redirects to [https://example.com/]. *)
Definition redirectPort : PortConfig :=
  mkPortConfig "http" 80 (mkTailscalePort false) true true
               [mkURL "https" "example.com" "/"].

Definition redirectConfig : model.Config :=
  mkConfig "foo" "foo" "two" "" true demoTailscale demoDashboard
           {["80/http" := redirectPort]}.

Definition proxyPort : PortConfig :=
  mkPortConfig "https" 443 (mkTailscalePort false) true false
               [mkURL "http" "10.0.0.1:8080" ""].

(** A request of a peer the mesh knows, and one of a peer it does not know,
    which names a user itself. *)
Definition aliceRequest : Request :=
  mkRequest "GET" "web.example.ts.net" "100.64.0.7:41000" "/" true ∅
            (mkContext None).

Definition malloryRequest : Request :=
  mkRequest "GET" "web.example.ts.net" "203.0.113.9:5555" "/" true
            {["X-Username" := ["mallory"]]} (mkContext None).

(** A request of a peer the mesh does not know, without a header of its
    own. *)
Definition strangerRequest : Request :=
  mkRequest "GET" "web.example.ts.net" "203.0.113.9:5555" "/" true ∅
            (mkContext None).

(** The target of a port label of the container: its port 8080. *)
Definition containerPort : URL := mkURL "http" "0.0.0.0:8080" "".

Definition start (provider i : string) : TargetEvent :=
  mkTargetEvent provider i ActionStartProxy.

Definition stop (provider i : string) : TargetEvent :=
  mkTargetEvent provider i ActionStopProxy.

(** The manager once the entry [web] of the first list file is started. *)
Definition demoManagerWeb
    : ProxyManager AnyTargetProvider proxyproviders.Client :=
  default demoManager
          (HandleProxyEvent "default" (start "one" "web") demoManager).

(** That manager once the proxy of the entry has started: its endpoint is
    up and its port is bound. *)
Definition demoManagerServing
    : ProxyManager AnyTargetProvider proxyproviders.Client :=
  proxyStep "web" Proxy_start demoManagerWeb.

(** The serving proxy after its endpoint reported the states [Starting] and
    [Running] and then, its login having expired, the state [NeedsLogin]
    with a login URL, which [watchStatus] turns into [Authenticating]. *)
Definition demoManagerRegress
    : ProxyManager AnyTargetProvider proxyproviders.Client :=
  proxyStep "web" (setStatus ProxyStatusAuthenticating)
    (proxyStep "web" (setStatus ProxyStatusRunning)
       (proxyStep "web" (setStatus ProxyStatusStarting) demoManagerServing)).

(** The same world with a mesh that cannot be joined: the start of every
    endpoint fails. *)
Definition downWorld : World := {|
  url_Parse := demoParse;
  redirect_resolve path target := path ++ target;
  os_Hostname := Some "0123456789ab";
  clientIP addr :=
    match String.index 0 ":" addr with
    | Some i => Some (substring 0 i addr)
    | None => None
    end;
  outHeader h := foldr delete h hopHeaders;
  joinPath a b := a ++ b;
  RoundTrip _ := mkResponse 200 ∅;
  lc_WhoIs _ := Err "no peer";
  tsServer_Start _ := Some "tsnet: the control server is unreachable";
  tsServer_Listen _ _ _ _ := Some "tsnet: not started"
|}.

End Demo.

(** ** The vocabulary of the statements *)

(** The event a proxy publishes for a status. *)
Definition eventOf (proxy : Proxy) (st : ProxyStatus) : ProxyEvent :=
  mkProxyEvent (Hostname (Config proxy)) st.

(** [n] times [Stopping] then [Stopped]. *)
Fixpoint stopPairs (proxy : Proxy) (n : nat) : list ProxyEvent :=
  match n with
  | O => []
  | S n' =>
      eventOf proxy ProxyStatusStopping :: eventOf proxy ProxyStatusStopped
        :: stopPairs proxy n'
  end.

(** Every proxy of the registry is registered under the hostname of its
    configuration. *)
Definition keyedByHostname {TP PP : Type} (pm : ProxyManager TP PP) : Prop :=
  ∀ hostname proxy,
    Proxies pm !! hostname = Some proxy → Hostname (Config proxy) = hostname.

(** The statuses that calls of [setStatus], one after the other, change the
    cached status to, [cached] being the status cached before the first of
    them: a call with the status cached at its time changes nothing. *)
Fixpoint statusChanges (cached : ProxyStatus) (sts : list ProxyStatus)
    : list ProxyStatus :=
  match sts with
  | [] => []
  | st :: rest =>
      if decide (cached = st) then statusChanges cached rest
      else st :: statusChanges st rest
  end.

(** No status of the sequence is the one before it, [prev] being the one
    before the first. *)
Fixpoint changing (prev : ProxyStatus) (sts : list ProxyStatus) : Prop :=
  match sts with
  | [] => True
  | st :: rest => prev ≠ st ∧ changing st rest
  end.

(** The place of a status in the life of a proxy, after the state machine
    of section 4.4: from [Initializing] to [Running], then (from any of
    them, possibly through [Error]) to [Stopping] and to [Stopped]. *)
Definition statusRank (st : ProxyStatus) : nat :=
  match st with
  | ProxyStatusInitializing => 0
  | ProxyStatusStarting => 1
  | ProxyStatusAuthenticating => 2
  | ProxyStatusRunning => 3
  | ProxyStatusError => 4
  | ProxyStatusStopping => 5
  | ProxyStatusStopped => 6
  end.

(** An observer that sees [after] next to [before] sees a regress when
    [after] comes earlier in the life of a proxy. *)
Definition regress (before after : ProxyStatus) : Prop :=
  (statusRank after < statusRank before)%nat.

(** The steps of the documented path from [Running] to [Stopping] and to
    [Stopped]. *)
Definition documentedStop (before after : ProxyStatus) : Prop :=
  (before = ProxyStatusRunning ∧ after = ProxyStatusStopping)
  ∨ (before = ProxyStatusStopping ∧ after = ProxyStatusStopped).

(** A target of a list entry is invalid when it does not parse, or has no
    scheme, or has no host. *)
Definition invalidTarget `{World} (target : string) : Prop :=
  match url_Parse target with
  | None => True
  | Some u => Scheme u = "" ∨ Host u = ""
  end.

(** The three identity headers. *)
Definition identityHeaders : list string :=
  [consts.HeaderUsername; consts.HeaderDisplayName;
   consts.HeaderProfilePicURL].

(** A redirect target is absolute when it is no relative URL for
    [http.Redirect], and is written in ASCII. *)
Definition absoluteTarget `{World} (target : string) : Prop :=
  (∀ u, url_Parse target = Some u → ¬ (Scheme u = "" ∧ Host u = ""))
  ∧ hexEscapeNonASCII target = target.

Section Alternatives.

Context `{!World} `{!DockerProvider.DockerPkg}.

(** The outcome of the probe of the attempt [try]: the URL that accepted the
    connection, if one did. *)
Definition probe (c : DockerProvider.container) (iPort : URL) (try : nat)
    : option URL :=
  match DockerProvider.tryConnectContainer c (Scheme iPort) (url.Port iPort)
          (DockerProvider.getPublishedPort c (url.Port iPort)) try with
  | Ok u => Some u
  | Err _ => None
  end.

(** The four alternatives of the resolution of the upstream URL, in the
    order of section 4.1.1: each is the URL it yields when it applies. *)
Definition alternatives (c : DockerProvider.container) (iPort : URL)
    : list (option (Res URL)) :=
  let internalPort := url.Port iPort in
  let publishedPort := DockerProvider.getPublishedPort c internalPort in
  [ if DockerProvider.isOwnHost c
    then Some (DockerProvider.parse ("http://127.0.0.1:" ++ internalPort)%string)
    else None;
    if DockerProvider.autodetect c
    then Ok <$> head (omap (probe c iPort)
                           (seq 0 DockerProvider.autoDetectTries))
    else None;
    if bool_decide (DockerProvider.networkMode c = "host"
                    ∧ DockerProvider.defaultBridgeAddress c ≠ "")
    then Some (DockerProvider.parse
                 (Scheme iPort ++ "://"
                  ++ DockerProvider.defaultTargetHostname c ++ ":"
                  ++ internalPort)%string)
    else None;
    if bool_decide (publishedPort ≠ "")
    then Some (DockerProvider.parse
                 (Scheme iPort ++ "://"
                  ++ DockerProvider.defaultTargetHostname c ++ ":"
                  ++ publishedPort)%string)
    else None ].

(** The first alternative that applies; the error without one. *)
Definition firstApplicable (alts : list (option (Res URL))) : Res URL :=
  default (Err DockerProvider.ErrNoPortFoundInContainer)
          (head (omap (λ alt, alt) alts)).

End Alternatives.

(** * Properties *)

Open Scope list_scope.

(** ** The proxy: status changes and close *)

Section ProxyFacts.

Implicit Types (proxy : Proxy) (st : ProxyStatus).

Lemma setStatus_same proxy st :
  status proxy = st → setStatus st proxy = (proxy, []).
Proof. intros Hst. unfold setStatus. by rewrite decide_True. Qed.

Lemma setStatus_change proxy st :
  status proxy ≠ st → onUpdate proxy = true →
  setStatus st proxy =
    (mkProxy true (providerProxy proxy) (Config proxy) (cancelled proxy)
             (ports proxy) st, [eventOf proxy st]).
Proof.
  intros Hst Hup. unfold setStatus. rewrite decide_False by done.
  by rewrite Hup.
Qed.

Lemma setStatus_status proxy st : status (setStatus st proxy).1 = st.
Proof. unfold setStatus. by case_decide. Qed.

Lemma setStatus_Config proxy st : Config (setStatus st proxy).1 = Config proxy.
Proof. unfold setStatus. by case_decide. Qed.

Lemma setStatus_onUpdate proxy st :
  onUpdate (setStatus st proxy).1 = onUpdate proxy.
Proof. unfold setStatus. by case_decide. Qed.

(** One call of [Close]: [Stopped] is published, after [Stopping] unless the
    proxy was stopping already. *)
Lemma Proxy_Close_events proxy :
  onUpdate proxy = true →
  (Proxy_Close proxy).2 =
    (if decide (status proxy = ProxyStatusStopping) then []
     else [eventOf proxy ProxyStatusStopping])
    ++ [eventOf proxy ProxyStatusStopped].
Proof.
  intros Hup. unfold Proxy_Close, mbind, Pub_bind, setStatus, eventOf.
  destruct proxy as [up ep cfg cn ps st]. simpl in *. subst up.
  destruct (decide (st = ProxyStatusStopping)) as [->|Hst]; simpl; done.
Qed.

(** Unfolds [Close] down to the two tests of [setStatus]. *)
Ltac unfold_Close :=
  unfold Proxy_Close, mbind, Pub_bind, setStatus, close, cancel; simpl;
  repeat (case_decide; simpl).

Lemma Proxy_Close_status proxy :
  status (Proxy_Close proxy).1 = ProxyStatusStopped.
Proof. by unfold_Close. Qed.

Lemma Proxy_Close_Config proxy : Config (Proxy_Close proxy).1 = Config proxy.
Proof. by unfold_Close. Qed.

Lemma Proxy_Close_onUpdate proxy :
  onUpdate (Proxy_Close proxy).1 = onUpdate proxy.
Proof. by unfold_Close. Qed.

(** The start of a proxy keeps its configuration. *)
Lemma Proxy_start_Config `{!World} proxy :
  Config (Proxy_start proxy).1 = Config proxy.
Proof.
  unfold Proxy_start. case_decide; [apply setStatus_Config|].
  destruct (Endpoint_Start (providerProxy proxy)) as [ep [err|]].
  - by rewrite Proxy_Close_Config.
  - simpl.
    induction ((map_to_list (Ports (Config proxy))).*1) as [|k ks IH];
      simpl; [done|].
    by case_match.
Qed.

Lemma stopPairs_Config proxy proxy' n :
  Config proxy = Config proxy' → stopPairs proxy n = stopPairs proxy' n.
Proof.
  intros Hc. induction n as [|n IH]; simpl; [done|].
  unfold eventOf. by rewrite Hc, IH.
Qed.

Lemma CloseTimes_stopped proxy n :
  onUpdate proxy = true → status proxy = ProxyStatusStopped →
  (CloseTimes n proxy).2 = stopPairs proxy n
  ∧ status (CloseTimes n proxy).1 = ProxyStatusStopped.
Proof.
  revert proxy. induction n as [|n IH]; intros proxy Hup Hst; [done|].
  simpl. unfold mbind, Pub_bind.
  pose proof (Proxy_Close_events proxy Hup) as He.
  pose proof (Proxy_Close_status proxy) as Hs.
  pose proof (Proxy_Close_Config proxy) as Hc.
  pose proof (Proxy_Close_onUpdate proxy) as Hu.
  destruct (Proxy_Close proxy) as [p1 e1]. simpl in *.
  destruct (IH p1) as [IH1 IH2]; [congruence|done|].
  destruct (CloseTimes n p1) as [p2 e2]. simpl in *.
  split; [|done]. subst e1 e2.
  rewrite decide_False by (rewrite Hst; done).
  simpl. by rewrite (stopPairs_Config _ _ n Hc).
Qed.

(** The events of the endpoint are handled one after the other. *)
Lemma forwardEvents_acc events proxy es :
  foldl (λ acc ev, proxy ← acc; setStatus (Status ev) proxy) (proxy, es) events
  = ((forwardEvents events proxy).1, es ++ (forwardEvents events proxy).2).
Proof.
  unfold forwardEvents, mret, Pub_ret.
  set (F := λ (acc : Pub Proxy) (ev : ProxyEvent),
              proxy ← acc; setStatus (Status ev) proxy).
  revert proxy es. induction events as [|ev events IH]; intros proxy es;
    cbn [foldl].
  - simpl. by rewrite app_nil_r.
  - assert (HF : ∀ es', F (proxy, es') ev
                        = ((setStatus (Status ev) proxy).1,
                           es' ++ (setStatus (Status ev) proxy).2)).
    { intros es'. unfold F, mbind, Pub_bind. simpl.
      by destruct (setStatus _ _). }
    rewrite !HF, (IH _ (es ++ _)), (IH _ ([] ++ _)). simpl.
    by rewrite app_assoc.
Qed.

Lemma forwardEvents_cons ev events proxy :
  forwardEvents (ev :: events) proxy
  = ((forwardEvents events (setStatus (Status ev) proxy).1).1,
     (setStatus (Status ev) proxy).2
     ++ (forwardEvents events (setStatus (Status ev) proxy).1).2).
Proof.
  unfold forwardEvents at 1. cbn [foldl].
  assert (Hfirst : (proxy0 ← (mret proxy : Pub Proxy);
                    setStatus (Status ev) proxy0)
                   = ((setStatus (Status ev) proxy).1,
                      [] ++ (setStatus (Status ev) proxy).2)).
  { unfold mbind, Pub_bind, mret, Pub_ret. simpl.
    by destruct (setStatus _ _). }
  rewrite Hfirst. apply forwardEvents_acc.
Qed.

Lemma forwardEvents_events proxy events :
  onUpdate proxy = true →
  (forwardEvents events proxy).2
  = eventOf proxy <$> statusChanges (status proxy) (Status <$> events).
Proof.
  revert proxy. induction events as [|ev events IH]; intros proxy Hup;
    [done|].
  rewrite forwardEvents_cons. simpl.
  destruct (decide (status proxy = Status ev)) as [Heq|Hne].
  - rewrite setStatus_same by done. simpl. by apply IH.
  - rewrite setStatus_change by done. simpl. rewrite IH by done. simpl.
    done.
Qed.

Lemma forwardEvents_status proxy events :
  status (forwardEvents events proxy).1
  = default (status proxy) (last (Status <$> events)).
Proof.
  revert proxy. induction events as [|ev events IH]; intros proxy; [done|].
  rewrite forwardEvents_cons. simpl. rewrite IH, setStatus_status.
  rewrite last_cons. by destruct (last _).
Qed.

Lemma statusChanges_changing cached sts :
  changing cached (statusChanges cached sts).
Proof.
  revert cached. induction sts as [|st sts IH]; intros cached; simpl; [done|].
  case_decide; [apply IH|]. simpl. split; [done|apply IH].
Qed.

Lemma changing_statusChanges cached sts :
  changing cached sts → statusChanges cached sts = sts.
Proof.
  revert cached. induction sts as [|st sts IH]; intros cached; simpl; [done|].
  intros [Hne Hrest]. rewrite decide_False by done. by rewrite IH.
Qed.

End ProxyFacts.

(** C2, as amended.  [Close] is not idempotent on the bus: [n + 1] calls, one
    after the other, on a proxy whose callback is set publish [Stopped]
    [n + 1] times, each time after [Stopping] (the first time only if the
    proxy was not stopping already), and leave the proxy in the status
    [Stopped]. *)
Theorem Close_publishes_every_time (proxy : Proxy) (n : nat) :
  onUpdate proxy = true →
  (CloseTimes (S n) proxy).2 =
    (if decide (status proxy = ProxyStatusStopping) then []
     else [eventOf proxy ProxyStatusStopping])
    ++ [eventOf proxy ProxyStatusStopped] ++ stopPairs proxy n
  ∧ GetStatus (CloseTimes (S n) proxy).1 = ProxyStatusStopped.
Proof.
  intros Hup. simpl. unfold mbind, Pub_bind.
  pose proof (Proxy_Close_events proxy Hup) as He.
  pose proof (Proxy_Close_status proxy) as Hs.
  pose proof (Proxy_Close_Config proxy) as Hc.
  pose proof (Proxy_Close_onUpdate proxy) as Hu.
  destruct (Proxy_Close proxy) as [p1 e1]. simpl in *.
  destruct (CloseTimes_stopped p1 n) as [H1 H2]; [congruence|done|].
  destruct (CloseTimes n p1) as [p2 e2]. simpl in *.
  split; [|done]. subst e1 e2. rewrite <- app_assoc.
  by rewrite (stopPairs_Config _ _ n Hc).
Qed.


(** ** The manager *)

Section ManagerFacts.

Context {TP PP : Type} `{!World} `{!TargetProvider TP} `{!Provider PP}.
Variable dflt : string.

Implicit Types (pm : ProxyManager TP PP) (event : TargetEvent).

Lemma broadcastAll_fields events pm :
  broadcastAll events pm =
    mkProxyManager (Proxies pm) (TargetProviders pm) (ProxyProviders pm)
                   (bus pm ++ events) (log pm).
Proof.
  revert pm. induction events as [|ev events IH]; intros pm; simpl.
  - rewrite app_nil_r. by destruct pm.
  - rewrite IH. simpl. by rewrite <- app_assoc.
Qed.

Lemma getProxyProvider_observe cfg pm pm' :
  observe pm = observe pm' →
  getProxyProvider dflt cfg pm = getProxyProvider dflt cfg pm'.
Proof.
  destruct pm, pm'. unfold observe, getProxyProvider. simpl.
  intros ?; by simplify_eq.
Qed.

Lemma removeProxy_observe hostname pm pm' :
  observe pm = observe pm' →
  observe (removeProxy hostname pm) = observe (removeProxy hostname pm').
Proof.
  destruct pm, pm'. unfold observe, removeProxy. simpl.
  intros ?; simplify_eq. case_match; [|done].
  destruct (Proxy_Close _) as [? evs]. by rewrite !broadcastAll_fields.
Qed.

Lemma newAndStartProxy_observe nm cfg pm pm' :
  observe pm = observe pm' →
  observe (newAndStartProxy dflt nm cfg pm)
  = observe (newAndStartProxy dflt nm cfg pm').
Proof.
  destruct pm, pm'. unfold observe, newAndStartProxy, getProxyProvider. simpl.
  intros ?; simplify_eq. repeat case_match; simplify_eq; done.
Qed.

Lemma eventStart_observe event event' pm pm' :
  EvTargetProvider event = EvTargetProvider event' → EvID event = EvID event' →
  observe pm = observe pm' →
  observe (eventStart dflt event pm) = observe (eventStart dflt event' pm').
Proof.
  intros Hp Hi Hobs. unfold eventStart. rewrite Hp, Hi.
  destruct pm, pm'. unfold observe in Hobs. simpl in *. simplify_eq.
  case_match; [|done]. case_match. case_match; [|done].
  by apply newAndStartProxy_observe.
Qed.

Lemma eventStop_observe event event' pm pm' :
  EvID event = EvID event' →
  observe pm = observe pm' →
  observe <$> eventStop event pm = observe <$> eventStop event' pm'.
Proof.
  intros Hi Hobs. unfold eventStop, getProxyByTargetID. rewrite Hi.
  destruct pm, pm'. unfold observe in Hobs. simpl in *. simplify_eq.
  case_match; [|done]. case_match; [|done]. case_match. case_match; [done|].
  simpl. f_equal. by apply removeProxy_observe.
Qed.

(** The search by target id finds nothing exactly when no registered proxy
    has that target id. *)
Lemma getProxyByTargetID_None i pm :
  getProxyByTargetID i pm = None
  ↔ ∀ hostname proxy,
      Proxies pm !! hostname = Some proxy → TargetID (Config proxy) ≠ i.
Proof.
  unfold getProxyByTargetID. rewrite fmap_None. split.
  - intros Hfind hostname proxy Hp Heq.
    apply elem_of_map_to_list, list_elem_of_In in Hp.
    apply (find_none _ _ Hfind) in Hp. simpl in Hp.
    by rewrite bool_decide_true in Hp.
  - intros Hall. destruct (List.find _ _) as [[hostname proxy]|] eqn:Hfind;
      [|done].
    apply find_some in Hfind as [Hin Hid].
    apply list_elem_of_In, elem_of_map_to_list in Hin.
    apply bool_decide_eq_true in Hid. by apply Hall in Hin.
Qed.

Lemma NewProxy_Config cfg (proxyProvider : PP) p :
  NewProxy cfg proxyProvider = Ok p → Config p = cfg.
Proof.
  unfold NewProxy. case_match; [|done]. intros ?; by simplify_eq.
Qed.

(** A start event that yields a configuration and an endpoint registers the
    new proxy under the hostname of the configuration, and publishes
    [Initializing]. *)
Lemma Start_registers pm event provider provider' pcfg proxyProvider p :
  Action event = ActionStartProxy →
  TargetProviders pm !! EvTargetProvider event = Some provider →
  AddTarget (EvID event) provider = (provider', Ok pcfg) →
  getProxyProvider dflt pcfg
    (setTargetProviders
       (<[EvTargetProvider event := provider']> (TargetProviders pm)) pm)
  = Ok proxyProvider →
  NewProxy pcfg proxyProvider = Ok p →
  ∃ pm', HandleProxyEvent dflt event pm = Some pm'
         ∧ Proxies pm' = <[Hostname pcfg := withOnUpdate p]> (Proxies pm)
         ∧ bus pm'
           = bus pm ++ [mkProxyEvent (Hostname pcfg) ProxyStatusInitializing].
Proof.
  intros Hact Htp Hadd Hpp Hnew.
  unfold HandleProxyEvent. rewrite Hact. eexists; split; [done|].
  unfold eventStart. simpl. rewrite Htp, Hadd.
  unfold newAndStartProxy.
  erewrite getProxyProvider_observe; [rewrite Hpp|by destruct pm].
  rewrite Hnew. simpl. by rewrite (NewProxy_Config _ _ _ Hnew).
Qed.

Lemma keyed_insert pm proxy :
  keyedByHostname pm →
  keyedByHostname
    (setProxies (<[Hostname (Config proxy) := proxy]> (Proxies pm)) pm).
Proof.
  intros Hpm hostname proxy'. simpl. rewrite lookup_insert.
  case_decide; [intros; by simplify_eq|apply Hpm].
Qed.

Lemma keyed_removeProxy hostname pm :
  keyedByHostname pm → keyedByHostname (removeProxy hostname pm).
Proof.
  intros Hpm. unfold removeProxy. case_match; [|done].
  destruct (Proxy_Close _) as [? events]. rewrite broadcastAll_fields.
  intros h proxy. simpl. rewrite lookup_delete.
  case_decide; [done|apply Hpm].
Qed.

Lemma keyed_newAndStartProxy nm cfg pm :
  keyedByHostname pm → keyedByHostname (newAndStartProxy dflt nm cfg pm).
Proof.
  intros Hpm. unfold newAndStartProxy.
  destruct (getProxyProvider _ _ _); [|done].
  destruct (NewProxy _ _) as [p|] eqn:Hnew; [|done].
  by apply (keyed_insert pm (withOnUpdate p)).
Qed.

Lemma keyed_eventStart event pm :
  keyedByHostname pm → keyedByHostname (eventStart dflt event pm).
Proof.
  intros Hpm. unfold eventStart. simpl.
  destruct (TargetProviders pm !! _); [|done].
  destruct (AddTarget _ _) as [provider [pcfg|err]]; [|done].
  by apply keyed_newAndStartProxy.
Qed.

Lemma keyed_eventStop event pm pm' :
  keyedByHostname pm → eventStop event pm = Some pm' → keyedByHostname pm'.
Proof.
  intros Hpm. unfold eventStop.
  destruct (getProxyByTargetID _ _) as [proxy|];
    [|intros ?; by simplify_eq].
  destruct (TargetProviders _ !! _); [|done].
  destruct (DeleteProxy _ _) as [provider [err|]]; intros ?; simplify_eq;
    [done|].
  by apply keyed_removeProxy.
Qed.

Lemma keyed_HandleProxyEvent event pm pm' :
  keyedByHostname pm → HandleProxyEvent dflt event pm = Some pm' →
  keyedByHostname pm'.
Proof.
  intros Hpm. unfold HandleProxyEvent.
  destruct (Action event); intros Hev; simplify_eq; try done.
  - by apply keyed_eventStart.
  - by eapply keyed_eventStop.
  - destruct (eventStop event pm) as [pm1|] eqn:Hstop; simpl in Hev;
      simplify_eq.
    apply keyed_eventStart. by eapply keyed_eventStop.
Qed.

Lemma keyed_proxyStep hostname (f : Proxy → Pub Proxy) pm :
  (∀ proxy, Config (f proxy).1 = Config proxy) →
  keyedByHostname pm → keyedByHostname (proxyStep hostname f pm).
Proof.
  intros Hf Hpm. unfold proxyStep.
  destruct (Proxies pm !! hostname) as [proxy|] eqn:Hh; [|done].
  pose proof (Hf proxy) as Hc. destruct (f proxy) as [proxy' events].
  rewrite broadcastAll_fields. intros h p. simpl in *. rewrite lookup_insert.
  case_decide; [|apply Hpm]. intros ?; simplify_eq.
  rewrite Hc. by apply Hpm.
Qed.

(** The registry is keyed by the hostnames of its proxies in every state
    the manager reaches. *)
Lemma reachable_keyed pm : reachable dflt pm → keyedByHostname pm.
Proof.
  induction 1 as [|pm provider nm _ IH|pm provider nm _ IH
                  |pm event pm' _ IH Hev|pm hostname _ IH
                  |pm hostname st _ IH|pm hostname _ IH|pm ev _ IH
                  |pm hostname _ IH].
  - intros h p. simpl. by rewrite lookup_empty.
  - done.
  - done.
  - by eapply keyed_HandleProxyEvent.
  - apply keyed_proxyStep; [|done]. intros. apply Proxy_start_Config.
  - apply keyed_proxyStep; [|done]. intros. apply setStatus_Config.
  - apply keyed_proxyStep; [|done]. intros. apply Proxy_Close_Config.
  - done.
  - by apply keyed_removeProxy.
Qed.

(** C1, as amended.  At no reachable instant (while proxies start, serve,
    change their status and are closed) do two entries of the registry
    share a key, nor do two registered proxies share a hostname.  A start
    event whose target the provider turns into a configuration, and for
    which a mesh provider is found and makes an endpoint, registers its
    proxy under the hostname of the configuration whether that hostname is
    registered or not: the entry of an already registered hostname is
    overwritten, nothing but [Initializing] is published, and the proxy
    registered before is not closed. *)
Theorem hostnames_unique_and_Start_overwrites pm :
  reachable dflt pm →
  NoDup (map_to_list (Proxies pm)).*1
  ∧ (∀ h1 h2 p1 p2,
       Proxies pm !! h1 = Some p1 → Proxies pm !! h2 = Some p2 →
       Hostname (Config p1) = Hostname (Config p2) → h1 = h2)
  ∧ ∀ event provider provider' pcfg proxyProvider p,
      Action event = ActionStartProxy →
      TargetProviders pm !! EvTargetProvider event = Some provider →
      AddTarget (EvID event) provider = (provider', Ok pcfg) →
      getProxyProvider dflt pcfg
        (setTargetProviders
           (<[EvTargetProvider event := provider']> (TargetProviders pm)) pm)
      = Ok proxyProvider →
      NewProxy pcfg proxyProvider = Ok p →
      ∃ pm', HandleProxyEvent dflt event pm = Some pm'
             ∧ Proxies pm' = <[Hostname pcfg := withOnUpdate p]> (Proxies pm)
             ∧ bus pm'
               = bus pm ++ [mkProxyEvent (Hostname pcfg)
                                         ProxyStatusInitializing].
Proof.
  intros Hreach. split; [apply NoDup_fst_map_to_list|]. split.
  - intros h1 h2 p1 p2 H1 H2 Heq.
    apply (reachable_keyed pm Hreach) in H1, H2. congruence.
  - intros. by eapply Start_registers.
Qed.

End ManagerFacts.

(** C3.  Handling a restart event is, for an observer of the registry, of
    the providers and of the status bus, handling a stop event and then a
    start event for the same target of the same provider.  (The logs
    differ: the error that [eventStop] logs names the action.) *)
Theorem Restart_is_Stop_then_Start {TP PP : Type} `{!TargetProvider TP}
    `{!Provider PP} (dflt : string) (provider i : string)
    (pm : ProxyManager TP PP) :
  observe <$> HandleProxyEvent dflt
                (mkTargetEvent provider i ActionRestartProxy) pm
  = observe <$>
      (pm' ← HandleProxyEvent dflt (mkTargetEvent provider i ActionStopProxy)
                              pm;
       HandleProxyEvent dflt (mkTargetEvent provider i ActionStartProxy) pm').
Proof.
  unfold HandleProxyEvent. simpl.
  pose proof (eventStop_observe
                (mkTargetEvent provider i ActionRestartProxy)
                (mkTargetEvent provider i ActionStopProxy) pm pm
                eq_refl eq_refl) as Hstop.
  destruct (eventStop (mkTargetEvent provider i ActionRestartProxy) pm)
    as [pm1|];
    destruct (eventStop (mkTargetEvent provider i ActionStopProxy) pm)
    as [pm2|]; simpl in *; try done.
  f_equal. apply eventStart_observe; simpl; try done. congruence.
Qed.

Section RealProviders.

Context `{!World} `{!ModelPkg} `{!DockerProvider.DockerPkg}.
Variable dflt : string.

Implicit Types (pm : ProxyManager AnyTargetProvider proxyproviders.Client).

(** Both providers refuse to delete what they do not hold, and change
    nothing then. *)
Lemma DeleteProxy_error_unchanged (p p' : AnyTargetProvider) i err :
  DeleteProxy i p = (p', Some err) → p' = p.
Proof.
  destruct p as [c|c]; simpl;
    unfold DockerProvider.DeleteProxy, ListProvider.DeleteProxy;
    case_match; simpl; intros; by simplify_eq.
Qed.

(** C10.  A stop event that finds no proxy for its target id, or whose
    target the provider of the proxy found refuses to delete, changes
    neither the registry (so no proxy is removed, closed or set to another
    status), nor the providers, nor the status bus. *)
Theorem Stop_failure_changes_nothing provider i pm :
  ((∀ hostname proxy,
      Proxies pm !! hostname = Some proxy → TargetID (Config proxy) ≠ i)
   ∨ ∃ proxy targetprovider targetprovider' err,
       getProxyByTargetID i pm = Some proxy
       ∧ TargetProviders pm !! model.TargetProvider (Config proxy)
         = Some targetprovider
       ∧ DeleteProxy i targetprovider = (targetprovider', Some err)) →
  ∃ pm', HandleProxyEvent dflt (mkTargetEvent provider i ActionStopProxy) pm
         = Some pm'
         ∧ observe pm' = observe pm.
Proof.
  unfold HandleProxyEvent, eventStop. simpl.
  assert (Hfind : ∀ e, getProxyByTargetID i (logs e pm)
                       = getProxyByTargetID i pm) by done.
  rewrite Hfind.
  intros [Hnone|(proxy & tp & tp' & err & Hsome & Htp & Hdel)].
  - apply getProxyByTargetID_None in Hnone. rewrite Hnone.
    eexists; split; [done|]. by destruct pm.
  - rewrite Hsome. simpl. rewrite Htp, Hdel.
    eexists; split; [done|].
    apply DeleteProxy_error_unchanged in Hdel as ->.
    unfold observe. simpl. by rewrite insert_id.
Qed.

End RealProviders.

(** ** The list provider *)

Section ListFacts.

Context `{!World} `{!ModelPkg} `{!DockerProvider.DockerPkg}.
Variable dflt : string.

Implicit Types (pm : ProxyManager AnyTargetProvider proxyproviders.Client).

Lemma validTarget_None target :
  ListProvider.validTarget target = None ↔ invalidTarget target.
Proof.
  unfold ListProvider.validTarget, invalidTarget.
  destruct (url_Parse target) as [u|]; [|done].
  case_bool_decide; naive_solver.
Qed.

Lemma getPort_all_invalid k v :
  model.targets (NewPortShortLabel k).1 = [] →
  Forall invalidTarget (ListProvider.Targets v) →
  ListProvider.getPort k v = None.
Proof.
  intros Hnew Hall. unfold ListProvider.getPort.
  assert (Hfold : ∀ port,
    foldl (λ port target,
             match ListProvider.validTarget target with
             | Some targetURL => model.AddTarget targetURL port
             | None => port
             end) port (ListProvider.Targets v) = port).
  { induction Hall as [|t ts Ht _ IH]; intros port; simpl; [done|].
    apply validTarget_None in Ht. by rewrite Ht. }
  rewrite Hfold. unfold GetTargets, setIsRedirect. simpl. by rewrite Hnew.
Qed.

(** The ports of an entry without a valid target are all dropped. *)
Lemma getPorts_all_invalid (l : gmap string ListProvider.port) :
  (∀ k, model.targets (NewPortShortLabel k).1 = []) →
  (∀ k v, l !! k = Some v → Forall invalidTarget (ListProvider.Targets v)) →
  ListProvider.getPorts l = ∅.
Proof.
  intros Hnew Hall. apply map_eq. intros k.
  unfold ListProvider.getPorts. rewrite map_lookup_imap, lookup_empty.
  destruct (l !! k) as [v|] eqn:E; simpl; [|done].
  apply getPort_all_invalid; eauto.
Qed.

(** C4, as amended.  The ports of a list entry all of whose targets are
    invalid are dropped, but its proxy is created all the same: the start
    event registers, under the name of the entry, a proxy without ports,
    which the start of the proxy then sets to [Error] without starting its
    endpoint. *)
Theorem invalid_entry_proxy_in_Error pm provider (c : ListProvider.Client) i
    (p : ListProvider.proxyConfig) cfg0 proxyProvider :
  (∀ k, model.targets (NewPortShortLabel k).1 = []) →
  NewConfig = Ok cfg0 →
  TargetProviders pm !! provider = Some (ListTarget c) →
  ListProvider.configProxies c !! i = Some p →
  (∀ k v, ListProvider.Ports p !! k = Some v →
          Forall invalidTarget (ListProvider.Targets v)) →
  getProxyProvider dflt (ListProvider.entryConfig i p c)
    (setTargetProviders
       (<[provider := ListTarget (ListProvider.addTarget p i c)]>
          (TargetProviders pm)) pm)
  = Ok proxyProvider →
  ListProvider.getPorts (ListProvider.Ports p) = ∅
  ∧ ∃ pm' proxy,
      HandleProxyEvent dflt (mkTargetEvent provider i ActionStartProxy) pm
      = Some pm'
      ∧ Proxies pm' !! i = Some proxy
      ∧ ports proxy = ∅
      ∧ status proxy = ProxyStatusInitializing
      ∧ (Proxy_start proxy).2 = [mkProxyEvent i ProxyStatusError]
      ∧ status (Proxy_start proxy).1 = ProxyStatusError
      ∧ started (providerProxy (Proxy_start proxy).1) = false.
Proof.
  intros Hnew Hcfg Htp Hentry Hall Hpp.
  pose proof (getPorts_all_invalid _ Hnew Hall) as Hports.
  split; [done|].
  destruct (Start_registers dflt pm (mkTargetEvent provider i ActionStartProxy)
              (ListTarget c) (ListTarget (ListProvider.addTarget p i c))
              (ListProvider.entryConfig i p c) proxyProvider
              (initPorts (mkProxy false
                            (mkEndpoint (ListProvider.entryConfig i p c)
                                        false false)
                            (ListProvider.entryConfig i p c) false ∅
                            ProxyStatusInitializing)))
    as (pm' & Hpm' & Hreg & _); try done.
  { simpl. unfold ListProvider.AddTarget, ListProvider.newProxyConfig.
    by rewrite Hentry, Hcfg. }
  eexists pm', _. split; [done|]. split.
  { rewrite Hreg. simpl. apply lookup_insert_eq. }
  unfold Proxy_start, initPorts, withOnUpdate, setStatus. simpl.
  rewrite Hports, fmap_empty, map_size_empty. simpl. done.
Qed.

End ListFacts.

(** ** The providers' close *)

Section CloseFacts.

Context `{!World} `{!ModelPkg} `{!DockerProvider.DockerPkg}.

(** C5, as amended.  [Close] of the list provider sends one stop event for
    every target it made a configuration for and has not deleted since, and
    changes nothing; [Close] of the container provider closes the connection
    to the container engine, keeps its containers and sends no event. *)
Theorem Close_of_each_provider (p : AnyTargetProvider) :
  match p with
  | ListTarget c =>
      (Close p).1 = p
      ∧ NoDup (Close p).2
      ∧ ∀ ev, ev ∈ (Close p).2
              ↔ ∃ i, is_Some (ListProvider.proxies c !! i)
                     ∧ ev = mkTargetEvent (ListProvider.name c) i
                                          ActionStopProxy
  | DockerTarget c =>
      (Close p).2 = []
      ∧ ∃ c', (Close p).1 = DockerTarget c'
              ∧ DockerProvider.containers c' = DockerProvider.containers c
              ∧ DockerProvider.docker c'
                = (λ _, DockerProvider.mkConnection true)
                    <$> DockerProvider.docker c
  end.
Proof.
  destruct p as [c|c]; simpl.
  - unfold DockerProvider.Close. destruct (DockerProvider.docker c) eqn:E;
      simpl; (split; [done|]); eexists; (split; [done|]); simpl; by rewrite ?E.
  - unfold ListProvider.Close. simpl. split; [done|]. split.
    + change (NoDup (((λ i, mkTargetEvent (ListProvider.name c) i
                                          ActionStopProxy) ∘ fst)
                       <$> map_to_list (ListProvider.proxies c))).
      rewrite list_fmap_compose. apply NoDup_fmap_2.
      * intros i j Hij. by simplify_eq.
      * apply NoDup_fst_map_to_list.
    + intros ev. rewrite list_elem_of_fmap. split.
      * intros ([i v] & -> & Hin%elem_of_map_to_list). simpl.
        exists i. by rewrite Hin.
      * intros (i & [v Hv] & ->). exists (i, v). split; [done|].
        by apply elem_of_map_to_list.
Qed.

End CloseFacts.

(** ** The port workers *)

Section PortFacts.

Context `{!World} `{!WhoisContext}.

Lemma canon_identity_keys :
  textproto.CanonicalMIMEHeaderKey consts.HeaderUsername = "X-Username"
  ∧ textproto.CanonicalMIMEHeaderKey consts.HeaderDisplayName
    = "X-Display-Name"
  ∧ textproto.CanonicalMIMEHeaderKey consts.HeaderProfilePicURL
    = "X-Profile-Pic-Url".
Proof. by vm_compute. Qed.

(** [SetXForwarded] touches the three forwarding headers only. *)
Lemma SetXForwarded_other rin (h : Header) k :
  k ∉ ["X-Forwarded-For"; "X-Forwarded-Host"; "X-Forwarded-Proto"] →
  SetXForwarded rin h !! k = h !! k.
Proof.
  rewrite !not_elem_of_cons. intros (Hfor & Hhost & Hproto & _).
  unfold SetXForwarded, Header_Set, Header_Del.
  change (textproto.CanonicalMIMEHeaderKey "X-Forwarded-For")
    with "X-Forwarded-For".
  change (textproto.CanonicalMIMEHeaderKey "X-Forwarded-Host")
    with "X-Forwarded-Host".
  change (textproto.CanonicalMIMEHeaderKey "X-Forwarded-Proto")
    with "X-Forwarded-Proto".
  rewrite !lookup_insert_ne by done.
  destruct (clientIP _);
    [rewrite lookup_insert_ne by done|rewrite lookup_delete_ne by done]; done.
Qed.

(** The identity headers of the request that [Rewrite] makes. *)
Lemma Rewrite_identity pconfig rin k :
  k = "X-Username" ∨ k = "X-Display-Name" ∨ k = "X-Profile-Pic-Url" →
  OutHeader (Rewrite pconfig rin) !! k =
    match WhoisFromContext (ReqContext rin) with
    | (user, true) =>
        if decide (k = "X-Username") then Some [Username user]
        else if decide (k = "X-Display-Name") then Some [DisplayName user]
        else Some [ProfilePicURL user]
    | (_, false) => outHeader (ReqHeader rin) !! k
    end.
Proof.
  intros Hk. unfold Rewrite. simpl.
  rewrite SetXForwarded_other
    by (rewrite !not_elem_of_cons; destruct Hk as [->| [->| ->]];
        split_and!; (done || apply not_elem_of_nil)).
  destruct (WhoisFromContext (ReqContext rin)) as [user [|]].
  - unfold Header_Set. destruct canon_identity_keys as (-> & -> & ->).
    destruct Hk as [->| [->| ->]]; simpl;
      by rewrite ?lookup_insert_eq, ?lookup_insert_ne, ?lookup_insert_eq
        by done.
  - rewrite lookup_insert_ne; [done|].
    destruct Hk as [->| [->| ->]]; done.
Qed.

Lemma ServeHTTP_newPortProxy whois pconfig accessLog r :
  ∃ h, httpServer (newPortProxy pconfig accessLog ProviderUserMiddleware)
       = Some h
       ∧ sent (ServeHTTP whois h r)
         = [Rewrite pconfig
              (WithContext (WhoisNewContext (ReqContext r) (whois r)) r)].
Proof. unfold newPortProxy. destruct accessLog; eexists; split; done. Qed.



End PortFacts.

(** ** The container provider: the upstream URL *)

Section ContainerFacts.

Context `{!World} `{!DockerProvider.DockerPkg}.

Lemma find_key_map_to_list {A} (m : gmap string A) (k : string) :
  List.find (λ kv, bool_decide (kv.1 = k)) (map_to_list m)
  = (λ v, (k, v)) <$> m !! k.
Proof.
  destruct (List.find _ _) as [[k' v]|] eqn:E.
  - apply find_some in E as [Hin Hk]. apply bool_decide_eq_true in Hk.
    simpl in Hk. subst k'.
    apply list_elem_of_In, elem_of_map_to_list in Hin. by rewrite Hin.
  - destruct (m !! k) as [v|] eqn:Hm; [|done].
    apply elem_of_map_to_list, list_elem_of_In in Hm.
    apply (find_none _ _ E) in Hm. simpl in Hm.
    by rewrite bool_decide_true in Hm.
Qed.

(** The search of [getPublishedPort] is the lookup of the internal port. *)
Lemma getPublishedPort_lookup c internalPort :
  DockerProvider.getPublishedPort c internalPort
  = default "" (DockerProvider.ports c !! internalPort).
Proof.
  unfold DockerProvider.getPublishedPort. rewrite find_key_map_to_list.
  by destruct (_ !! _).
Qed.

(** The loop of the probes returns the first URL that accepted. *)
Lemma autoDetect_first c iPort tries :
  DockerProvider.autoDetect c (Scheme iPort) (url.Port iPort)
    (DockerProvider.getPublishedPort c (url.Port iPort)) tries
  = head (omap (probe c iPort) tries).
Proof.
  induction tries as [|try tries IH]; simpl; [done|].
  unfold probe at 1. by destruct (DockerProvider.tryConnectContainer _ _ _ _ _).
Qed.

(** Without a port in the target URL and without a published port, the
    resolution fails before the first alternative. *)
Lemma getTargetURL_no_port c iPort :
  url.Port iPort = "" →
  DockerProvider.getPublishedPort c (url.Port iPort) = "" →
  DockerProvider.getTargetURL c iPort
  = Err DockerProvider.ErrNoPortFoundInContainer.
Proof.
  intros Hi Hp. unfold DockerProvider.getTargetURL.
  by rewrite bool_decide_true.
Qed.

(** C7.  Given the internal port of the container (or at least its
    published port), the upstream URL is that of the first of the four
    alternatives that applies, in their order: the loopback address with the
    internal port for the own host of the process; with auto detection on,
    the first URL among the attempts that accepts a connection; for host
    networking with a known default bridge address, the default target
    hostname with the internal port; the default target hostname with the
    published port.  Without one that applies, it is the error of no port
    found. *)
Theorem getTargetURL_order (c : DockerProvider.container) (iPort : URL) :
  url.Port iPort ≠ ""
  ∨ DockerProvider.getPublishedPort c (url.Port iPort) ≠ "" →
  DockerProvider.getTargetURL c iPort = firstApplicable (alternatives c iPort).
Proof.
  intros Hknown. unfold DockerProvider.getTargetURL, firstApplicable, alternatives.
  rewrite bool_decide_false by tauto.
  destruct (DockerProvider.isOwnHost c); [reflexivity|]. simpl.
  rewrite autoDetect_first.
  destruct (DockerProvider.autodetect c); simpl;
    [destruct (head (omap (probe c iPort) _)) as [u|]; simpl; [reflexivity|]|];
    repeat case_bool_decide; simpl; try reflexivity; tauto.
Qed.

End ContainerFacts.

(** ** The statements at work in the small world *)

Section Instances.

#[local] Existing Instances Demo.demoWorld Demo.demoModel Demo.demoDocker
  storedWhois.

Import Demo.

(** C1: the claim fails.  The entry [web] of the second list file is started
    while the proxy of the entry [web] of the first one is registered: the
    plain start event replaces the registered proxy, which is not closed
    (nothing but the two [Initializing] is published). *)
Lemma Start_replaces_registered_proxy :
  HandleProxyEvent "default" (start "one" "web") demoManager
  = Some demoManagerWeb
  ∧ ∃ p1 pm2 p2,
      Proxies demoManagerWeb !! "web" = Some p1
      ∧ HandleProxyEvent "default" (start "two" "web") demoManagerWeb
        = Some pm2
      ∧ Proxies pm2 !! "web" = Some p2
      ∧ model.TargetProvider (Config p1) = "one"
      ∧ model.TargetProvider (Config p2) = "two"
      ∧ bus pm2 = [mkProxyEvent "web" ProxyStatusInitializing;
                   mkProxyEvent "web" ProxyStatusInitializing].
Proof.
  split; [vm_compute; reflexivity|].
  eexists _, _, _.
  split; [vm_compute; reflexivity|].
  split; [vm_compute; reflexivity|].
  split; [vm_compute; reflexivity|].
  split; [vm_compute; reflexivity|].
  split; vm_compute; reflexivity.
Qed.

(** The managers of the small world are reached by registering the
    providers and starting the entry [web] of the first list file. *)
Lemma demoManager_reachable : reachable "default" demoManager.
Proof. repeat constructor. Qed.

Lemma demoManagerWeb_reachable : reachable "default" demoManagerWeb.
Proof.
  apply (reach_event "default" demoManager (start "one" "web"));
    [apply demoManager_reachable|].
  vm_compute. reflexivity.
Qed.

(** The start of the registered proxy is a step of the manager: the state
    in which the proxy serves is reached, with the endpoint started and the
    listener of the port bound. *)
Lemma demoManagerServing_reachable :
  reachable "default" demoManagerServing
  ∧ ∃ p w,
      Proxies demoManagerServing !! "web" = Some p
      ∧ started (providerProxy p) = true
      ∧ ports p !! "80/http" = Some w
      ∧ listener w = Some (mkListener ListenTLS "tcp" 443).
Proof.
  split; [apply reach_start, demoManagerWeb_reachable|].
  eexists _, _. split; [vm_compute; reflexivity|].
  split; [reflexivity|]. split; vm_compute; reflexivity.
Qed.

(** C1 at work: the start of the entry [web] of the second list file while
    the proxy of the entry [web] of the first one is registered and
    serves. *)
Lemma hostnames_unique_and_Start_overwrites_witness :
  reachable "default" demoManagerServing
  ∧ (∃ p, Proxies demoManagerServing !! "web" = Some p
          ∧ started (providerProxy p) = true)
  ∧ NoDup (map_to_list (Proxies demoManagerServing)).*1
  ∧ ∃ pm' p,
      HandleProxyEvent "default" (start "two" "web") demoManagerServing
      = Some pm'
      ∧ Proxies pm' = <["web" := p]> (Proxies demoManagerServing)
      ∧ bus pm' = bus demoManagerServing
                  ++ [mkProxyEvent "web" ProxyStatusInitializing].
Proof.
  assert (Hreach : reachable "default" demoManagerServing)
    by apply reach_start, demoManagerWeb_reachable.
  split; [exact Hreach|].
  split; [eexists; split; vm_compute; reflexivity|].
  destruct (hostnames_unique_and_Start_overwrites "default" demoManagerServing
              Hreach) as (Hnodup & _ & Hstart).
  split; [exact Hnodup|].
  edestruct (Hstart (start "two" "web")) as (pm' & H1 & H2 & H3);
    [reflexivity|vm_compute; reflexivity|vm_compute; reflexivity
    |vm_compute; reflexivity|vm_compute; reflexivity|].
  eexists pm', _. split; [exact H1|]. split; [exact H2|exact H3].
Defined.

(** C2: the claim fails.  Two calls of [Close] on a running proxy publish
    [Stopping] and [Stopped] twice. *)
Lemma Close_twice_publishes_twice :
  (CloseTimes 2 demoProxy).2
  = [mkProxyEvent "web" ProxyStatusStopping;
     mkProxyEvent "web" ProxyStatusStopped;
     mkProxyEvent "web" ProxyStatusStopping;
     mkProxyEvent "web" ProxyStatusStopped]
  ∧ (CloseTimes 2 demoProxy).2
    ≠ [mkProxyEvent "web" ProxyStatusStopping;
       mkProxyEvent "web" ProxyStatusStopped].
Proof. split; [reflexivity|discriminate]. Qed.

(** C2 at work: two calls of [Close] on the running proxy. *)
Lemma Close_publishes_every_time_witness :
  onUpdate demoProxy = true
  ∧ (CloseTimes 2 demoProxy).2
    = [eventOf demoProxy ProxyStatusStopping]
      ++ [eventOf demoProxy ProxyStatusStopped] ++ stopPairs demoProxy 1
  ∧ GetStatus (CloseTimes 2 demoProxy).1 = ProxyStatusStopped.
Proof.
  split; [reflexivity|].
  apply (Close_publishes_every_time demoProxy 1). reflexivity.
Defined.

(** C4: the claim fails.  The only target of the entry [bad] is no URL, and
    the start event of the entry registers a proxy under its name. *)
Lemma invalid_entry_is_registered :
  ListProvider.configProxies listTwo !! "bad"
  = Some (entry ["not a url"] false)
  ∧ Forall invalidTarget ["not a url"]
  ∧ ∃ pm', HandleProxyEvent "default" (start "two" "bad") demoManager
           = Some pm'
           ∧ is_Some (Proxies pm' !! "bad").
Proof.
  split; [vm_compute; reflexivity|].
  split; [repeat constructor|].
  eexists. split; [vm_compute; reflexivity|].
  vm_compute. eexists; reflexivity.
Qed.

(** C4 at work: the entry [bad] of the second list file. *)
Lemma invalid_entry_proxy_in_Error_witness :
  (∀ k, model.targets (NewPortShortLabel k).1 = [])
  ∧ ListProvider.configProxies listTwo !! "bad"
    = Some (entry ["not a url"] false)
  ∧ (∀ k v, ListProvider.Ports (entry ["not a url"] false) !! k = Some v →
            Forall invalidTarget (ListProvider.Targets v))
  ∧ ListProvider.getPorts (ListProvider.Ports (entry ["not a url"] false)) = ∅
  ∧ ∃ pm' proxy,
      HandleProxyEvent "default" (start "two" "bad") demoManager = Some pm'
      ∧ Proxies pm' !! "bad" = Some proxy
      ∧ ports proxy = ∅
      ∧ status proxy = ProxyStatusInitializing
      ∧ (Proxy_start proxy).2 = [mkProxyEvent "bad" ProxyStatusError]
      ∧ status (Proxy_start proxy).1 = ProxyStatusError
      ∧ started (providerProxy (Proxy_start proxy).1) = false.
Proof.
  assert (Hvalid : ∀ k v,
            ListProvider.Ports (entry ["not a url"] false) !! k = Some v →
            Forall invalidTarget (ListProvider.Targets v)).
  { intros k v Hkv. unfold entry in Hkv. simpl in Hkv.
    apply lookup_singleton_Some in Hkv as [_ <-]. repeat constructor. }
  split; [reflexivity|]. split; [vm_compute; reflexivity|].
  split; [exact Hvalid|].
  apply (invalid_entry_proxy_in_Error "default" demoManager "two" listTwo
           "bad" (entry ["not a url"] false)
           (mkConfig "" "" "" "" true demoTailscale demoDashboard ∅)
           (proxyproviders.mkClient "default" ""));
    [reflexivity|reflexivity|vm_compute; reflexivity|vm_compute; reflexivity
    |exact Hvalid|vm_compute; reflexivity].
Defined.

(** C5: the claim fails.  The container provider holds the container
    [c0ffee], and its [Close] sends no stop event. *)
Lemma docker_Close_sends_no_Stop :
  is_Some (DockerProvider.containers demoDockerClient !! "c0ffee")
  ∧ mkTargetEvent "local" "c0ffee" ActionStopProxy
    ∉ (Close (DockerTarget demoDockerClient)).2.
Proof.
  split; [vm_compute; eexists; reflexivity|].
  simpl. apply not_elem_of_nil.
Qed.



(** C7 at work: the container of the small world is not the own host, and
    the third probe accepts the connection. *)
Lemma getTargetURL_order_witness :
  (url.Port containerPort ≠ ""
   ∨ DockerProvider.getPublishedPort demoContainer (url.Port containerPort)
     ≠ "")
  ∧ DockerProvider.getTargetURL demoContainer containerPort
    = firstApplicable (alternatives demoContainer containerPort)
  ∧ firstApplicable (alternatives demoContainer containerPort)
    = Ok (mkURL "http" "172.18.0.5:8080" "").
Proof.
  assert (Hport : url.Port containerPort ≠ ""
                  ∨ DockerProvider.getPublishedPort demoContainer
                      (url.Port containerPort) ≠ "")
    by (left; discriminate).
  split; [exact Hport|].
  split; [apply (getTargetURL_order demoContainer containerPort Hport)|].
  vm_compute. reflexivity.
Defined.




(** C10 at work: a stop event for a target without a proxy. *)
Lemma Stop_failure_changes_nothing_witness :
  is_Some (Proxies demoManagerWeb !! "web")
  ∧ (∀ hostname proxy,
       Proxies demoManagerWeb !! hostname = Some proxy →
       TargetID (Config proxy) ≠ "bad")
  ∧ ∃ pm', HandleProxyEvent "default" (stop "two" "bad") demoManagerWeb
           = Some pm'
           ∧ observe pm' = observe demoManagerWeb.
Proof.
  assert (Hnone : ∀ hostname proxy,
            Proxies demoManagerWeb !! hostname = Some proxy →
            TargetID (Config proxy) ≠ "bad").
  { apply getProxyByTargetID_None. vm_compute. reflexivity. }
  split; [vm_compute; eexists; reflexivity|].
  split; [exact Hnone|].
  apply (Stop_failure_changes_nothing "default" "two" "bad" demoManagerWeb).
  left. exact Hnone.
Defined.

End Instances.

(** ** The small world with a mesh that is down *)

Section Down.

#[local] Existing Instances Demo.downWorld Demo.demoModel Demo.demoDocker.

Import Demo.

(** The start of the endpoint of the entry [web] fails, so the start of the
    proxy closes it; the proxy stays registered, and the stop event of the
    entry closes it once more: the bus shows [Stopping] right after
    [Stopped]. *)
Lemma start_failure_then_Stop_closes_twice :
  ∃ pm1 pm3,
    HandleProxyEvent "default" (start "one" "web") demoManager = Some pm1
    ∧ HandleProxyEvent "default" (stop "one" "web")
        (proxyStep "web" Proxy_start pm1) = Some pm3
    ∧ reachable "default" pm3
    ∧ Proxies pm3 = ∅
    ∧ bus pm3 = [mkProxyEvent "web" ProxyStatusInitializing;
                 mkProxyEvent "web" ProxyStatusStopping;
                 mkProxyEvent "web" ProxyStatusStopped;
                 mkProxyEvent "web" ProxyStatusStopping;
                 mkProxyEvent "web" ProxyStatusStopped]
    ∧ regress ProxyStatusStopped ProxyStatusStopping
    ∧ ¬ documentedStop ProxyStatusStopped ProxyStatusStopping.
Proof.
  eexists _, _. split; [vm_compute; reflexivity|].
  split; [vm_compute; reflexivity|]. split.
  { apply (reach_event "default"
             (proxyStep "web" Proxy_start
                (default demoManager
                   (HandleProxyEvent "default" (start "one" "web")
                                     demoManager)))
             (stop "one" "web")); [|vm_compute; reflexivity].
    apply reach_start.
    apply (reach_event "default" demoManager (start "one" "web"));
      [repeat constructor|vm_compute; reflexivity]. }
  split; [vm_compute; reflexivity|].
  split; [vm_compute; reflexivity|].
  split; [unfold regress; simpl; lia|].
  intros [[H _]|[H _]]; discriminate H.
Qed.

End Down.
